(** * Health-Image-Classifier: the upload-and-classify exchange

    A shallow embedding of [server/routes/classify.ts] (the upload
    configuration and the classification handler) and of the state
    handlers of [client/pages/Index.tsx], with the properties of the
    request/response contract proved about them.

    Conventions.
    - JavaScript numbers that the code only compares, scales by a power of
      two or copies ([Math.random()], the [confidence] literals) are exact
      rationals [Q]; integers (status codes, byte counts, time values in
      milliseconds) are [Z].
    - A JavaScript object literal is an association list in insertion
      order; [undefined] and [null] are [None], or [JNull] where the
      variable holds a JSON value.
    - Effects of the handler (timer, random source, clock, the response
      object, the console) are threaded through an explicit [World]; the
      handlers of the client return the next state and what they ask of
      the browser.
    - Builtins of the platform ([Date], [Math], [fetch], [FormData]) are
      modelled after their specifications, as far as the code uses them. *)

From Stdlib Require Import ZArith QArith Qround List String Ascii Bool Lia.
From Stdlib Require Import NArith DecimalString.
Import ListNotations.

Local Open Scope string_scope.
Local Open Scope list_scope.
Local Open Scope Z_scope.

(** ** JavaScript values that cross the wire *)

Module Js.

#[local] Set Warnings "-register-all".

(** A JSON value; [JNull] also stands for a state variable that holds
    [null]. *)
Inductive JsVal : Type :=
| JNull
| JBool (b : bool)
| JNum (q : Q)
| JStr (s : string)
| JArr (items : list JsVal)
| JObj (fields : list (string * JsVal)).

(** An object literal: keys in insertion order. *)
Definition JsObject : Type := list (string * JsVal).

(** [o.key], [None] when the property is absent. *)
Fixpoint get (key : string) (o : JsObject) : option JsVal :=
  match o with
  | [] => None
  | (k, v) :: rest => if String.eqb k key then Some v else get key rest
  end.

(** [{...x}] where [x] may be [undefined]: spreading [undefined] adds no
    property. *)
Definition spread (x : option JsObject) : JsObject :=
  match x with
  | Some fields => fields
  | None => []
  end.

(** [arr[i]] for an integral index: [undefined] out of range. *)
Definition index {A : Type} (arr : list A) (i : Z) : option A :=
  if i <? 0 then None else nth_error arr (Z.to_nat i).

(** A thrown value: an [Error] instance with its [message], or anything
    else. *)
Inductive Thrown : Type :=
| ErrorObject (message : string)
| OtherValue (repr : string).

(** [s.startsWith(p)] *)
Definition startsWith (s p : string) : bool := String.prefix p s.

End Js.

Import Js.

(** ** The platform's [Date]: time values and [toISOString]

    [new Date().toISOString()] is a builtin; it is modelled after the
    definitions of ECMA-262 (Day, DayFromYear, YearFromTime, MonthFromTime,
    DateFromTime, the time-within-day fields, the range of time values and
    the ISO format with its expanded years). A time value is a number of
    milliseconds since 1970-01-01T00:00:00Z. *)

Module JsDate.

Definition msPerDay : Z := 86400000.
Definition msPerHour : Z := 3600000.
Definition msPerMinute : Z := 60000.
Definition msPerSecond : Z := 1000.

(** The largest magnitude of a time value: 8.64e15 ms. *)
Definition maxTime : Z := 8640000000000000.

(** [TimeClip]: [None] is NaN, the time value of an invalid [Date]. *)
Definition TimeClip (t : Z) : option Z :=
  if Z.abs t <=? maxTime then Some t else None.

Definition Day (t : Z) : Z := t / msPerDay.
Definition TimeWithinDay (t : Z) : Z := t mod msPerDay.

Definition DayFromYear (y : Z) : Z :=
  365 * (y - 1970) + (y - 1969) / 4 - (y - 1901) / 100 + (y - 1601) / 400.

Definition isLeapYear (y : Z) : bool :=
  (y mod 4 =? 0) && (negb (y mod 100 =? 0) || (y mod 400 =? 0)).

Definition DaysInYear (y : Z) : Z := if isLeapYear y then 366 else 365.

(** The year that contains day number [d]: the 400-, 100-, 4- and 1-year
    cycles counted from 0001-01-01, which is day -719162. *)
Definition YearFromDay (d : Z) : Z :=
  let n := d + 719162 in
  let q400 := n / 146097 in
  let r400 := n mod 146097 in
  let q100 := Z.min 3 (r400 / 36524) in
  let r100 := r400 - 36524 * q100 in
  let q4 := r100 / 1461 in
  let r4 := r100 mod 1461 in
  let q1 := Z.min 3 (r4 / 365) in
  400 * q400 + 100 * q100 + 4 * q4 + q1 + 1.

Definition YearFromTime (t : Z) : Z := YearFromDay (Day t).

Definition DayWithinYear (t : Z) : Z := Day t - DayFromYear (YearFromTime t).

Definition InLeapYear (t : Z) : Z :=
  if isLeapYear (YearFromTime t) then 1 else 0.

(** Month number, 0 = January. *)
Definition MonthFromTime (t : Z) : Z :=
  let d := DayWithinYear t in
  let l := InLeapYear t in
  if d <? 31 then 0
  else if d <? 59 + l then 1
  else if d <? 90 + l then 2
  else if d <? 120 + l then 3
  else if d <? 151 + l then 4
  else if d <? 181 + l then 5
  else if d <? 212 + l then 6
  else if d <? 243 + l then 7
  else if d <? 273 + l then 8
  else if d <? 304 + l then 9
  else if d <? 334 + l then 10
  else 11.

(** Day of the month, 1-based. *)
Definition DateFromTime (t : Z) : Z :=
  let d := DayWithinYear t in
  let l := InLeapYear t in
  match MonthFromTime t with
  | 0 => d + 1
  | 1 => d - 30
  | 2 => d - 58 - l
  | 3 => d - 89 - l
  | 4 => d - 119 - l
  | 5 => d - 150 - l
  | 6 => d - 180 - l
  | 7 => d - 211 - l
  | 8 => d - 242 - l
  | 9 => d - 272 - l
  | 10 => d - 303 - l
  | _ => d - 333 - l
  end.

Definition HourFromTime (t : Z) : Z := (t / msPerHour) mod 24.
Definition MinFromTime (t : Z) : Z := (t / msPerMinute) mod 60.
Definition SecFromTime (t : Z) : Z := (t / msPerSecond) mod 60.
Definition msFromTime (t : Z) : Z := t mod msPerSecond.

(** *** Decimal fields *)

Definition digit_char (d : Z) : ascii := ascii_of_N (48 + Z.to_N d).

Definition digit_val (c : ascii) : option Z :=
  let n := N_of_ascii c in
  if ((48 <=? n) && (n <=? 57))%N then Some (Z.of_N n - 48) else None.

(** [n] in exactly [k] decimal digits, most significant first. *)
Fixpoint digits (k : nat) (n : Z) : list ascii :=
  match k with
  | O => []
  | S k' => digits k' (n / 10) ++ [digit_char (n mod 10)]
  end.

(** The year field: four digits for 0..9999, otherwise a sign and six
    digits. *)
Definition year_field (y : Z) : list ascii :=
  if (0 <=? y) && (y <=? 9999) then digits 4 y
  else if 0 <=? y then "+"%char :: digits 6 y
  else "-"%char :: digits 6 (- y).

(** [YYYY-MM-DDTHH:mm:ss.sssZ] of a valid time value. *)
Definition iso_chars (t : Z) : list ascii :=
  year_field (YearFromTime t)
    ++ "-"%char :: digits 2 (MonthFromTime t + 1)
    ++ "-"%char :: digits 2 (DateFromTime t)
    ++ "T"%char :: digits 2 (HourFromTime t)
    ++ ":"%char :: digits 2 (MinFromTime t)
    ++ ":"%char :: digits 2 (SecFromTime t)
    ++ "."%char :: digits 3 (msFromTime t)
    ++ ["Z"%char].

(** [Date.prototype.toISOString]: a [RangeError] on an invalid date. *)
Definition toISOString (tv : option Z) : Thrown + string :=
  match tv with
  | None => inl (ErrorObject "Invalid time value")
  | Some t => inr (string_of_list_ascii (iso_chars t))
  end.

(** *** Reading the format back *)

(** Reads exactly [k] decimal digits. *)
Fixpoint take_digits (k : nat) (acc : Z) (l : list ascii)
  : option (Z * list ascii) :=
  match k with
  | O => Some (acc, l)
  | S k' =>
      match l with
      | [] => None
      | c :: rest =>
          match digit_val c with
          | Some d => take_digits k' (10 * acc + d) rest
          | None => None
          end
      end
  end.

Definition expect (c : ascii) (l : list ascii) : option (list ascii) :=
  match l with
  | c' :: rest => if Ascii.eqb c c' then Some rest else None
  | [] => None
  end.

Definition take_year (l : list ascii) : option (Z * list ascii) :=
  match l with
  | "+"%char :: rest => take_digits 6 0 rest
  | "-"%char :: rest =>
      match take_digits 6 0 rest with
      | Some (y, rest') => if y =? 0 then None else Some (- y, rest')
      | None => None
      end
  | _ => take_digits 4 0 l
  end.

(** First day of month [m] (0 = January) within a year; [l] is 1 in a
    leap year. *)
Definition monthStart (m l : Z) : Z :=
  match m with
  | 0 => 0
  | 1 => 31
  | 2 => 59 + l
  | 3 => 90 + l
  | 4 => 120 + l
  | 5 => 151 + l
  | 6 => 181 + l
  | 7 => 212 + l
  | 8 => 243 + l
  | 9 => 273 + l
  | 10 => 304 + l
  | _ => 334 + l
  end.

Definition DaysInMonth (y m : Z) : Z :=
  let l := if isLeapYear y then 1 else 0 in
  if m =? 11 then 31 else monthStart (m + 1) l - monthStart m l.

Definition MakeDay (y m date : Z) : Z :=
  DayFromYear y + monthStart m (if isLeapYear y then 1 else 0) + date - 1.

Definition MakeTime (h mi s ms : Z) : Z :=
  h * msPerHour + mi * msPerMinute + s * msPerSecond + ms.

Definition MakeDate (day time : Z) : Z := day * msPerDay + time.

Definition obind {A B : Type} (o : option A) (f : A -> option B) : option B :=
  match o with
  | Some a => f a
  | None => None
  end.

Notation "' p <- o ;; k" := (obind o (fun x => match x with p => k end))
  (at level 61, p pattern, o at next level, right associativity).
Notation "x <- o ;; k" := (obind o (fun x => k))
  (at level 61, o at next level, right associativity).

(** Reads a date-time in the format of [toISOString] and checks the range
    of every field; the result is its time value. *)
Definition parse_chars (l : list ascii) : option Z :=
  ' (y, l) <- take_year l ;;
  l <- expect "-" l ;;
  ' (mo, l) <- take_digits 2 0 l ;;
  l <- expect "-" l ;;
  ' (d, l) <- take_digits 2 0 l ;;
  l <- expect "T" l ;;
  ' (h, l) <- take_digits 2 0 l ;;
  l <- expect ":" l ;;
  ' (mi, l) <- take_digits 2 0 l ;;
  l <- expect ":" l ;;
  ' (s, l) <- take_digits 2 0 l ;;
  l <- expect "." l ;;
  ' (ms, l) <- take_digits 3 0 l ;;
  l <- expect "Z" l ;;
  match l with
  | [] =>
      if (1 <=? mo) && (mo <=? 12) && (1 <=? d) && (d <=? DaysInMonth y (mo - 1))
         && (h <? 24) && (mi <? 60) && (s <? 60)
      then TimeClip (MakeDate (MakeDay y (mo - 1) d) (MakeTime h mi s ms))
      else None
  | _ :: _ => None
  end.

(** [Date.parse] restricted to the ISO date-time format. *)
Definition parse (s : string) : option Z :=
  parse_chars (list_ascii_of_string s).

End JsDate.

(** ** The server route: [server/routes/classify.ts] *)

Module Server.

(** *** The world the handler runs in *)

Inductive Event : Type :=
| EvTimeout (ms : Z)                       (* setTimeout(resolve, ms), awaited *)
| EvRandom                                 (* Math.random() *)
| EvDate                                   (* new Date() *)
| EvSend (status : Z) (body : JsObject)    (* res.status(status).json(body) *)
| EvConsoleError (label : string) (e : Thrown).

(** [clock] is the wall clock in milliseconds; [timer ms] is the time that
    really passes while a timer of [ms] milliseconds is awaited; [rng] is
    the sequence of values [Math.random()] returns, of which [drawn] are
    used; [trace] records the effects in the order they happen. *)
Record World : Type := mkWorld {
  clock : Z;
  timer : Z -> Z;
  rng : nat -> Q;
  drawn : nat;
  trace : list Event
}.

Definition emit (ev : Event) (w : World) : World :=
  mkWorld (clock w) (timer w) (rng w) (drawn w) (trace w ++ [ev]).

(** *** Computations that may throw *)

Inductive Outcome (A : Type) : Type :=
| Ret (a : A)
| Throw (e : Thrown).
Arguments Ret {A} a.
Arguments Throw {A} e.

Definition M (A : Type) : Type := World -> Outcome A * World.

Definition ret {A : Type} (a : A) : M A := fun w => (Ret a, w).

Definition throw {A : Type} (e : Thrown) : M A := fun w => (Throw e, w).

Definition bind {A B : Type} (m : M A) (k : A -> M B) : M B :=
  fun w =>
    match m w with
    | (Ret a, w') => k a w'
    | (Throw e, w') => (Throw e, w')
    end.

(** [try { body } catch (error) { handler }] *)
Definition try_catch {A : Type} (body : M A) (handler : Thrown -> M A) : M A :=
  fun w =>
    match body w with
    | (Ret a, w') => (Ret a, w')
    | (Throw e, w') => handler e w'
    end.

Notation "x <- m ;; k" := (bind m (fun x => k))
  (at level 61, m at next level, right associativity).
Notation "m ;; k" := (bind m (fun _ => k))
  (at level 61, right associativity).

(** *** Platform operations *)

(** [await new Promise((resolve) => setTimeout(resolve, ms))]: the promise
    is only ever resolved, so the await never throws. *)
Definition await_timeout (ms : Z) : M unit :=
  fun w =>
    (Ret tt,
     emit (EvTimeout ms)
       (mkWorld (clock w + timer w ms) (timer w) (rng w) (drawn w) (trace w))).

(** [Math.random()] *)
Definition Math_random : M Q :=
  fun w =>
    (Ret (rng w (drawn w)),
     emit EvRandom (mkWorld (clock w) (timer w) (rng w) (S (drawn w)) (trace w))).

(** [Math.floor(x)] *)
Definition Math_floor (x : Q) : Z := Qfloor x.

(** [new Date()]: the time value of the current time. *)
Definition Date_new : M (option Z) :=
  fun w => (Ret (JsDate.TimeClip (clock w)), emit EvDate w).

(** [d.toISOString()] *)
Definition Date_toISOString (d : option Z) : M string :=
  match JsDate.toISOString d with
  | inl e => throw e
  | inr s => ret s
  end.

(** [res.status(code).json(body)]; [res.json(body)] is the same with the
    default status 200. *)
Definition res_status_json (code : Z) (body : JsObject) : M unit :=
  fun w => (Ret tt, emit (EvSend code body) w).

Definition res_json (body : JsObject) : M unit := res_status_json 200 body.

(** [console.error(label, e)] *)
Definition console_error (label : string) (e : Thrown) : M unit :=
  fun w => (Ret tt, emit (EvConsoleError label e) w).

(** [error instanceof Error] *)
Definition instanceof_Error (e : Thrown) : bool :=
  match e with
  | ErrorObject _ => true
  | OtherValue _ => false
  end.

Definition message (e : Thrown) : string :=
  match e with
  | ErrorObject m => m
  | OtherValue _ => ""
  end.

(** *** The upload configuration *)

(** A file as multer hands it over with memory storage. *)
Record File : Type := mkFile {
  fieldname : string;
  originalname : string;
  mimetype : string;
  buffer : list Byte.byte
}.

Definition size (f : File) : Z := Z.of_nat (List.length (buffer f)).

(** [limits: { fileSize: 10 * 1024 * 1024 }] *)
Definition fileSize : Z := 10 * 1024 * 1024.

(** [fileFilter]: the pair is the two arguments handed to [cb]. *)
Definition fileFilter (file : File) : option Thrown * bool :=
  if startsWith (mimetype file) "image/" then (None, true)
  else (Some (ErrorObject "Only image files are allowed"), false).

(** *** The handler *)

Record Request : Type := mkRequest { file : option File }.

Definition prediction (condition : string) (confidence : Q) (severity description : string)
  : JsObject :=
  [ ("condition", JStr condition);
    ("confidence", JNum confidence);
    ("severity", JStr severity);
    ("description", JStr description) ].

Definition mockPredictions : list JsObject :=
  [ prediction "Melanoma" (87 # 100) "high"
      "Detected suspicious pigmented lesion. Recommend immediate dermatological consultation for further evaluation.";
    prediction "Benign Nevus" (92 # 100) "low"
      "Appears to be a benign mole. Continue regular skin monitoring and annual dermatological check-ups.";
    prediction "Seborrheic Keratosis" (78 # 100) "low"
      "Common benign skin growth. No immediate treatment required unless cosmetically bothersome.";
    prediction "Basal Cell Carcinoma" (83 # 100) "medium"
      "Possible skin cancer detected. Recommend dermatological evaluation for confirmation and treatment planning." ].

(** The conditions of the catalog, in its order. *)
Definition catalog_conditions : list string :=
  ["Melanoma"; "Benign Nevus"; "Seborrheic Keratosis"; "Basal Cell Carcinoma"].

Definition has_severity (sev : string) (entry : JsObject) : bool :=
  match get "severity" entry with
  | Some (JStr s) => String.eqb s sev
  | _ => false
  end.

(** How many entries of the catalog have severity [sev]. *)
Definition severity_count (sev : string) : nat :=
  List.length (filter (has_severity sev) mockPredictions).

(** The body of the [try] block. *)
Definition handler_try (req : Request) : M unit :=
  match file req with
  | None => res_status_json 400 [("error", JStr "No image file provided")]
  | Some _ =>
      await_timeout 2000 ;;
      r <- Math_random ;;
      let randomPrediction :=
        index mockPredictions
          (Math_floor (r * inject_Z (Z.of_nat (List.length mockPredictions)))) in
      now <- Date_new ;;
      timestamp <- Date_toISOString now ;;
      let response := spread randomPrediction ++ [("timestamp", JStr timestamp)] in
      res_json response
  end.

(** The [catch] block. *)
Definition handler_catch (error : Thrown) : M unit :=
  console_error "Classification error:" error ;;
  res_status_json 500
    [ ("error", JStr "Failed to process image classification");
      ("details",
       JStr (if instanceof_Error error then message error else "Unknown error")) ].

Definition handleClassification (req : Request) : M unit :=
  try_catch (handler_try req) handler_catch.

(** What was sent on the response object, in order. *)
Fixpoint responses (tr : list Event) : list (Z * JsObject) :=
  match tr with
  | [] => []
  | EvSend status body :: rest => (status, body) :: responses rest
  | _ :: rest => responses rest
  end.

(** *** The route: upload middleware, then the handler *)

(** What the multipart request carries: at most one file part. *)
Definition Upload : Type := option File.

(** [upload.single("image")]: the one field a file is taken from. *)
Definition uploadField : string := "image".

Inductive Routed : Type :=
| Handled (out : Outcome unit) (w : World)     (* the handler ran *)
| RejectedUnexpectedField (field : string)     (* a file under another field, handler not run *)
| RejectedByFilter (err : Thrown)              (* fileFilter's error, handler not run *)
| RejectedTooLarge.                            (* size limit hit, handler not run *)

(** Modelled from the spec: what [upload.single("image")] does with the
    file part of a request, and the order middleware-then-handler of the
    route. The middleware is multer's and the route is registered outside
    [classify.ts]; that file holds the configuration only: the field name
    ([uploadField]), the size limit ([fileSize]) and the filter
    ([fileFilter]). Following the spec, a file is accepted under the one
    fixed field name only, so a file under another field is refused before
    the filter is asked; a file whose type the filter refuses is rejected
    with the filter's error; a file of more than [fileSize] bytes is
    rejected by the transport layer; in all three cases the handler does
    not run. Otherwise the handler runs with [req.file] set, or unset when
    the request carries no file. The comparison at exactly [fileSize]
    bytes is the spec's; what the library does there is not modelled. *)
Definition uploadMiddleware (u : Upload) : Routed + Request :=
  match u with
  | None => inr (mkRequest None)
  | Some f =>
      if negb (String.eqb (fieldname f) uploadField)
      then inl (RejectedUnexpectedField (fieldname f))
      else
        match fileFilter f with
        | (Some err, _) => inl (RejectedByFilter err)
        | (None, false) => inr (mkRequest None)
        | (None, true) =>
            if size f <=? fileSize then inr (mkRequest (Some f))
            else inl RejectedTooLarge
        end
  end.

(** Modelled from the spec: the route runs the upload middleware first and
    the handler only on what the middleware lets through; its registration
    is outside [classify.ts]. *)
Definition route (u : Upload) (w : World) : Routed :=
  match uploadMiddleware u with
  | inl rejected => rejected
  | inr req => let (out, w') := handleClassification req w in Handled out w'
  end.

(** A world and an upload to run the route on: the clock shows
    2026-11-01T12:34:56.123Z, timers take 3 ms longer than asked, and
    every draw is 0.75. *)
Definition example_world : World :=
  mkWorld 1793536496123 (fun ms => ms + 3) (fun _ => 3 # 4) 0 [].

Definition example_upload : File :=
  mkFile "image" "lesion.png" "image/png" [Byte.x89; Byte.x50; Byte.x4e; Byte.x47].

(** A world whose clock is past the last time value, 8.64e15 ms. *)
Definition late_world : World :=
  mkWorld 9000000000000000 (fun ms => ms) (fun _ => 1 # 4) 0 [].

End Server.

(** ** The upload client: the handlers of [client/pages/Index.tsx] *)

Module Client.

(** A browser [File]. *)
Record File : Type := mkFile {
  name : string;
  type : string;
  content : list Byte.byte
}.

(** The component's state variables, [null] being [None] or [JNull]. *)
Record State : Type := mkState {
  selectedImage : option File;
  imagePreview : option string;
  isAnalyzing : bool;
  prediction : JsVal;
  isDragOver : bool
}.

(** The initial values given to [useState]. *)
Definition initial : State := mkState None None false JNull false.

Definition setSelectedImage (v : option File) (s : State) : State :=
  mkState v (imagePreview s) (isAnalyzing s) (prediction s) (isDragOver s).
Definition setImagePreview (v : option string) (s : State) : State :=
  mkState (selectedImage s) v (isAnalyzing s) (prediction s) (isDragOver s).
Definition setIsAnalyzing (v : bool) (s : State) : State :=
  mkState (selectedImage s) (imagePreview s) v (prediction s) (isDragOver s).
Definition setPrediction (v : JsVal) (s : State) : State :=
  mkState (selectedImage s) (imagePreview s) (isAnalyzing s) v (isDragOver s).
Definition setIsDragOver (v : bool) (s : State) : State :=
  mkState (selectedImage s) (imagePreview s) (isAnalyzing s) (prediction s) v.

(** What a handler asks of the browser. *)
Inductive Cmd : Type :=
| PreventDefault
| ReadAsDataURL (f : File)
| Fetch (url method : string) (formData : list (string * File))
| ConsoleError (label : string) (e : Thrown).

(** [handleImageSelect(file)] *)
Definition handleImageSelect (f : File) (s : State) : State * list Cmd :=
  (setPrediction JNull (setSelectedImage (Some f) s), [ReadAsDataURL f]).

(** [reader.onload]: [e.target?.result] is the data URL read. *)
Definition reader_onload (result : option string) (s : State) : State :=
  setImagePreview result s.

(** [handleDrop(e)], [files] being [e.dataTransfer.files]. *)
Definition handleDrop (files : list File) (s : State) : State * list Cmd :=
  let s1 := setIsDragOver false s in
  match index files 0 with
  | Some f =>
      if startsWith (type f) "image/" then
        let (s2, cmds) := handleImageSelect f s1 in (s2, PreventDefault :: cmds)
      else (s1, [PreventDefault])
  | None => (s1, [PreventDefault])
  end.

(** [handleFileChange(e)], [files] being [e.target.files], which may be
    [null]. *)
Definition handleFileChange (files : option (list File)) (s : State)
  : State * list Cmd :=
  match files with
  | Some l =>
      match index l 0 with
      | Some f => handleImageSelect f s
      | None => (s, [])
      end
  | None => (s, [])
  end.

(** How the awaited [fetch] settles: it rejects, or it resolves to a
    response with a status and a body that [response.json()] parses or
    fails on. *)
Inductive FetchSettled : Type :=
| FetchRejected (e : Thrown)
| FetchResponse (status : Z) (json : Thrown + JsVal).

(** [response.ok] *)
Definition ok (status : Z) : bool := (200 <=? status) && (status <=? 299).

(** Decimal rendering of a status inside a template string. *)
Definition decimal (n : Z) : string :=
  DecimalString.NilZero.string_of_int (Z.to_int n).

(** The result object of the [catch] block. *)
Definition fallback : JsVal :=
  JObj [ ("condition", JStr "Analysis Error");
         ("confidence", JNum 0);
         ("severity", JStr "medium");
         ("description",
          JStr "Unable to analyze image. Please try again or contact support if the problem persists.") ].

(** [analyzeImage] up to its first [await]: [None] when it returns at
    once. *)
Definition analyze_begin (s : State) : option (State * list Cmd) :=
  match selectedImage s with
  | None => None
  | Some image =>
      Some (setIsAnalyzing true s, [Fetch "/api/classify" "POST" [("image", image)]])
  end.

(** The rest of the [try] block: the value given to [setPrediction], or
    what is thrown. *)
Definition analyze_try (r : FetchSettled) : Thrown + JsVal :=
  match r with
  | FetchRejected e => inl e
  | FetchResponse status json =>
      if negb (ok status)
      then inl (ErrorObject ("HTTP error! status: " ++ decimal status))
      else json
  end.

(** [analyzeImage] from the moment the request settles: [try], [catch]
    and [finally], on the state of that moment. *)
Definition analyze_settle (r : FetchSettled) (s : State) : State * list Cmd :=
  let (s1, cmds) :=
    match analyze_try r with
    | inr result => (setPrediction result s, [])
    | inl error =>
        (setPrediction fallback s, [ConsoleError "Error analyzing image:" error])
    end in
  (setIsAnalyzing false s1, cmds).

(** A complete execution of [analyzeImage]: [meanwhile] is what other
    handlers did to the state while the request was in flight. *)
Definition analyzeImage (s : State) (r : FetchSettled) (meanwhile : State -> State)
  : State * list Cmd :=
  match analyze_begin s with
  | None => (s, [])
  | Some (s1, cmds) =>
      let (s2, cmds') := analyze_settle r (meanwhile s1) in (s2, cmds ++ cmds')
  end.

(** [clearImage()] *)
Definition clearImage (s : State) : State :=
  setPrediction JNull (setImagePreview None (setSelectedImage None s)).

(** What the page shows: the upload area when [!imagePreview], the result
    card when [prediction] is set. *)
Definition showsUploadArea (s : State) : bool :=
  match imagePreview s with
  | None => true
  | Some url => String.eqb url ""
  end.

Definition showsResults (s : State) : bool :=
  match prediction s with
  | JNull => false
  | JBool b => b
  | JNum q => negb (Qeq_bool q 0)
  | JStr t => negb (String.eqb t "")
  | JArr _ | JObj _ => true
  end.

(** The file part the browser puts in the multipart body for a [File]
    appended to a [FormData] under [field]: its content type is the file's
    type, or [application/octet-stream] when the type is empty. *)
Definition multipart_part (field : string) (f : File) : Server.File :=
  Server.mkFile field (name f)
    (if String.eqb (type f) "" then "application/octet-stream" else type f)
    (content f).

Definition example_image : File :=
  mkFile "lesion.png" "image/png" [Byte.x89; Byte.x50; Byte.x4e; Byte.x47].

Definition example_document : File :=
  mkFile "report.pdf" "application/pdf" [Byte.x25; Byte.x50; Byte.x44; Byte.x46].

End Client.

(** ** What the page renders: the rest of [client/pages/Index.tsx] *)

Module Render.
Import Client.

(** [getSeverityColor(severity)]: the classes of the badge. *)
Definition getSeverityColor (severity : string) : string :=
  if String.eqb severity "low" then "bg-green-100 text-green-800 border-green-200"
  else if String.eqb severity "medium" then "bg-yellow-100 text-yellow-800 border-yellow-200"
  else if String.eqb severity "high" then "bg-red-100 text-red-800 border-red-200"
  else "bg-gray-100 text-gray-800 border-gray-200".

(** The two icons of the badge. *)
Inductive Icon : Type :=
| CheckCircle2
| AlertCircle.

(** [getSeverityIcon(severity)] *)
Definition getSeverityIcon (severity : string) : Icon :=
  if String.eqb severity "low" then CheckCircle2
  else if String.eqb severity "medium" then AlertCircle
  else if String.eqb severity "high" then AlertCircle
  else AlertCircle.

(** [onDragOver] and [onDragLeave] of the upload area. *)
Definition handleDragOver (s : State) : State * list Cmd :=
  (setIsDragOver true s, [PreventDefault]).

Definition handleDragLeave (s : State) : State * list Cmd :=
  (setIsDragOver false s, []).

(** The controls of the page. The upload area (with its drop handlers and
    the file input) is rendered when [!imagePreview]; otherwise the
    preview with the two clear buttons and the analyze button, which is
    [disabled={isAnalyzing}]. *)
Inductive Control : Type :=
| UploadArea
| ClearButton
| AnalyzeButton.

Definition rendered (c : Control) (s : State) : bool :=
  match c with
  | UploadArea => showsUploadArea s
  | ClearButton => negb (showsUploadArea s)
  | AnalyzeButton => negb (showsUploadArea s)
  end.

(** A control takes events when it is rendered and not disabled. *)
Definition enabled (c : Control) (s : State) : bool :=
  match c with
  | AnalyzeButton => rendered c s && negb (isAnalyzing s)
  | _ => rendered c s
  end.

(** The component together with what it has asked of the browser and not
    yet heard back about: file reads and requests. *)
Record Page : Type := mkPage {
  state : State;
  reads : nat;
  requests : nat
}.

Definition initial_page : Page := mkPage initial 0 0.

Definition is_read (c : Cmd) : bool :=
  match c with
  | ReadAsDataURL _ => true
  | _ => false
  end.

Definition is_fetch (c : Cmd) : bool :=
  match c with
  | Fetch _ _ _ => true
  | _ => false
  end.

(** The page after a handler ran: its new state, and the reads and
    requests it started. *)
Definition after (p : Page) (r : State * list Cmd) : Page :=
  mkPage (fst r)
    (reads p + List.length (filter is_read (snd r)))
    (requests p + List.length (filter is_fetch (snd r))).

(** What can happen to the page: the user acts on a control, a file read
    completes, or a request settles. *)
Inductive UiEvent : Type :=
| DragOver
| DragLeave
| Drop (files : list File)
| Pick (files : option (list File))
| ClickAnalyze
| ClickClear
| ReaderLoaded (result : option string)
| RequestSettled (r : FetchSettled).

(** One event; [None] when it cannot happen on this page (its control is
    not rendered or is disabled, or nothing is pending). *)
Definition step (p : Page) (ev : UiEvent) : option Page :=
  let s := state p in
  match ev with
  | DragOver =>
      if enabled UploadArea s then Some (after p (handleDragOver s)) else None
  | DragLeave =>
      if enabled UploadArea s then Some (after p (handleDragLeave s)) else None
  | Drop files =>
      if enabled UploadArea s then Some (after p (handleDrop files s)) else None
  | Pick files =>
      if enabled UploadArea s then Some (after p (handleFileChange files s)) else None
  | ClickAnalyze =>
      if enabled AnalyzeButton s then
        match analyze_begin s with
        | Some started => Some (after p started)
        | None => Some p
        end
      else None
  | ClickClear =>
      if enabled ClearButton s then Some (after p (clearImage s, [])) else None
  | ReaderLoaded result =>
      match reads p with
      | O => None
      | S n => Some (mkPage (reader_onload result s) n (requests p))
      end
  | RequestSettled r =>
      match requests p with
      | O => None
      | S n => Some (mkPage (fst (analyze_settle r s)) (reads p) n)
      end
  end.

(** A sequence of events from a page. *)
Fixpoint run (evs : list UiEvent) (p : Page) : option Page :=
  match evs with
  | [] => Some p
  | ev :: rest =>
      match step p ev with
      | Some p' => run rest p'
      | None => None
      end
  end.

(** How a response of the handler reaches [analyzeImage]: [res.json]
    writes the body as JSON text, [fetch] resolves with the status and
    [response.json()] reads the object back. *)
Definition settled_by (response : Z * JsObject) : FetchSettled :=
  FetchResponse (fst response) (inr (JObj (snd response))).

End Render.
Module DateFacts.
Import JsDate.

Ltac div_lia := Z.to_euclidean_division_equations; lia.

Lemma YearFromDay_spec (d : Z) :
  DayFromYear (YearFromDay d) <= d < DayFromYear (YearFromDay d + 1).
Proof.
  unfold DayFromYear, YearFromDay.
  cbv zeta.
  div_lia.
Qed.

(** [YearFromDay d] is the largest year that starts on or before day
    [d]. *)
Lemma YearFromDay_largest (d y : Z) :
  DayFromYear y <= d -> y <= YearFromDay d.
Proof.
  intros Hy. pose proof (YearFromDay_spec d) as [_ Hlt].
  revert Hy Hlt. generalize (YearFromDay d). intros y'.
  unfold DayFromYear. div_lia.
Qed.

Lemma DayFromYear_succ (y : Z) :
  DayFromYear (y + 1) = DayFromYear y + DaysInYear y.
Proof.
  unfold DayFromYear, DaysInYear, isLeapYear.
  destruct (y mod 4 =? 0) eqn:E4; destruct (y mod 100 =? 0) eqn:E100;
    destruct (y mod 400 =? 0) eqn:E400; cbn [andb orb negb];
    rewrite ?Z.eqb_eq, ?Z.eqb_neq in *; div_lia.
Qed.

Lemma DayWithinYear_range (t : Z) :
  0 <= DayWithinYear t < 365 + InLeapYear t.
Proof.
  unfold DayWithinYear, InLeapYear, YearFromTime.
  pose proof (YearFromDay_spec (Day t)) as H.
  rewrite DayFromYear_succ in H. unfold DaysInYear in H.
  destruct (isLeapYear (YearFromDay (Day t))); lia.
Qed.

Lemma InLeapYear_cases (t : Z) : InLeapYear t = 0 \/ InLeapYear t = 1.
Proof. unfold InLeapYear. destruct (isLeapYear _); auto. Qed.

Lemma MonthFromTime_range (t : Z) : 0 <= MonthFromTime t <= 11.
Proof.
  unfold MonthFromTime. cbv zeta.
  repeat match goal with |- context [if ?b then _ else _] => destruct b end; lia.
Qed.

Lemma DateFromTime_monthStart (t : Z) :
  DateFromTime t = DayWithinYear t - monthStart (MonthFromTime t) (InLeapYear t) + 1.
Proof.
  unfold DateFromTime, MonthFromTime. cbv zeta.
  repeat match goal with |- context [if ?b then _ else _] => destruct b end;
    cbn [monthStart]; lia.
Qed.

Lemma DateFromTime_range (t : Z) :
  1 <= DateFromTime t <= DaysInMonth (YearFromTime t) (MonthFromTime t).
Proof.
  rewrite DateFromTime_monthStart.
  pose proof (DayWithinYear_range t) as Hd.
  unfold DaysInMonth. fold (InLeapYear t).
  destruct (InLeapYear_cases t) as [Hl | Hl]; rewrite Hl in *;
    unfold MonthFromTime; cbv zeta; rewrite Hl;
    repeat match goal with
      | |- context [if ?a <? ?b then _ else _] =>
          destruct (Z.ltb_spec a b)
      end; cbn; lia.
Qed.

Lemma MakeDay_fields (t : Z) :
  MakeDay (YearFromTime t) (MonthFromTime t) (DateFromTime t) = Day t.
Proof.
  unfold MakeDay. fold (InLeapYear t).
  rewrite DateFromTime_monthStart. unfold DayWithinYear. lia.
Qed.

Lemma time_fields_range (t : Z) :
  0 <= HourFromTime t < 24 /\ 0 <= MinFromTime t < 60 /\
  0 <= SecFromTime t < 60 /\ 0 <= msFromTime t < 1000.
Proof.
  unfold HourFromTime, MinFromTime, SecFromTime, msFromTime, msPerSecond.
  repeat split; try apply Z.mod_pos_bound; lia.
Qed.

Lemma MakeTime_fields (t : Z) :
  MakeTime (HourFromTime t) (MinFromTime t) (SecFromTime t) (msFromTime t)
  = TimeWithinDay t.
Proof.
  unfold MakeTime, HourFromTime, MinFromTime, SecFromTime, msFromTime,
    TimeWithinDay, msPerHour, msPerMinute, msPerSecond, msPerDay.
  div_lia.
Qed.

Lemma MakeDate_fields (t : Z) : MakeDate (Day t) (TimeWithinDay t) = t.
Proof.
  unfold MakeDate, Day, TimeWithinDay, msPerDay. div_lia.
Qed.

Lemma YearFromTime_range (t : Z) :
  Z.abs t <= maxTime -> -271821 <= YearFromTime t <= 275760.
Proof.
  unfold maxTime, YearFromTime, Day, msPerDay. intros Ht.
  pose proof (YearFromDay_spec (t / 86400000)) as H.
  unfold DayFromYear in H. div_lia.
Qed.


Lemma digit_val_char (d : Z) : 0 <= d <= 9 -> digit_val (digit_char d) = Some d.
Proof.
  intros Hd. unfold digit_val, digit_char.
  rewrite N_ascii_embedding by lia.
  replace ((48 <=? 48 + Z.to_N d)%N && (48 + Z.to_N d <=? 57)%N) with true.
  - f_equal. lia.
  - symmetry. apply andb_true_iff. split; apply N.leb_le; lia.
Qed.

Lemma take_digits_digits (k : nat) :
  forall (j : nat) (m acc : Z) (l : list ascii),
    0 <= m < 10 ^ Z.of_nat k ->
    take_digits (k + j) acc (digits k m ++ l)
    = take_digits j (acc * 10 ^ Z.of_nat k + m) l.
Proof.
  induction k as [| k IH]; intros j m acc l Hm.
  - cbn in *. f_equal. lia.
  - rewrite Nat2Z.inj_succ, Z.pow_succ_r in * by lia.
    cbn [digits]. rewrite <- app_assoc. cbn [app].
    replace (S k + j)%nat with (k + S j)%nat by lia.
    assert (Hq : 0 <= m / 10 < 10 ^ Z.of_nat k) by div_lia.
    assert (Hr : 0 <= m mod 10 <= 9) by div_lia.
    rewrite (IH (S j) (m / 10) acc _ Hq).
    cbn [take_digits]. rewrite (digit_val_char _ Hr).
    f_equal.
    pose proof (Z.div_mod m 10 ltac:(lia)) as Hdm.
    remember (m / 10) as q. remember (m mod 10) as r.
    rewrite Hdm. ring.
Qed.

Lemma take_digits_app (k : nat) (n : Z) (rest : list ascii) :
  0 <= n < 10 ^ Z.of_nat k ->
  take_digits k 0 (digits k n ++ rest) = Some (n, rest).
Proof.
  intros Hn.
  replace k with (k + 0)%nat at 1 by lia.
  rewrite take_digits_digits by assumption. reflexivity.
Qed.

Lemma take_year_digit (c : ascii) (l : list ascii) (d : Z) :
  digit_val c = Some d -> take_year (c :: l) = take_digits 4 0 (c :: l).
Proof.
  destruct c as [b0 b1 b2 b3 b4 b5 b6 b7].
  destruct b0, b1, b2, b3, b4, b5, b6, b7; intros H;
    try discriminate H; reflexivity.
Qed.

Lemma take_year_field (y : Z) (rest : list ascii) :
  -999999 <= y <= 999999 ->
  take_year (year_field y ++ rest) = Some (y, rest).
Proof.
  intros Hy. unfold year_field.
  destruct (Z.leb_spec 0 y) as [H0 | H0]; cbn [andb].
  - destruct (Z.leb_spec y 9999) as [H1 | H1].
    + assert (Hd : 0 <= y / 10 / 10 / 10 mod 10 <= 9) by div_lia.
      pose proof (take_digits_app 4 y rest ltac:(cbn; lia)) as Ht.
      cbn [digits app] in *.
      rewrite (take_year_digit _ _ _ (digit_val_char _ Hd)). exact Ht.
    + cbn [app take_year].
      apply (take_digits_app 6). cbn; lia.
  - cbn [app take_year].
    rewrite (take_digits_app 6) by (cbn; lia).
    destruct (Z.eqb_spec (- y) 0); [lia |].
    f_equal. f_equal. lia.
Qed.

Lemma expect_cons (c : ascii) (l : list ascii) : expect c (c :: l) = Some l.
Proof. cbn. now rewrite Ascii.eqb_refl. Qed.

Create Rewrite HintDb date_bool.
#[local] Hint Rewrite Z.leb_le Z.ltb_lt andb_true_iff : date_bool.

(** Reading back what [toISOString] prints gives the time value. *)
Lemma parse_chars_iso (t : Z) :
  Z.abs t <= maxTime -> parse_chars (iso_chars t) = Some t.
Proof.
  intros Ht.
  pose proof (YearFromTime_range t Ht) as Hy.
  pose proof (MonthFromTime_range t) as Hm.
  pose proof (DateFromTime_range t) as Hd.
  pose proof (time_fields_range t) as (Hh & Hmi & Hs & Hms).
  assert (Hdim : DaysInMonth (YearFromTime t) (MonthFromTime t) <= 31).
  { unfold DaysInMonth.
    destruct (isLeapYear (YearFromTime t));
      destruct (MonthFromTime t) as [| p | p]; try lia;
      do 4 (try destruct p as [p | p |]); cbn; lia. }
  unfold parse_chars, iso_chars.
  rewrite take_year_field by lia. cbn [obind].
  rewrite expect_cons. cbn [obind].
  rewrite (take_digits_app 2) by (cbn; lia). cbn [obind].
  rewrite expect_cons. cbn [obind].
  rewrite (take_digits_app 2) by (cbn; lia). cbn [obind].
  rewrite expect_cons. cbn [obind].
  rewrite (take_digits_app 2) by (cbn; lia). cbn [obind].
  rewrite expect_cons. cbn [obind].
  rewrite (take_digits_app 2) by (cbn; lia). cbn [obind].
  rewrite expect_cons. cbn [obind].
  rewrite (take_digits_app 2) by (cbn; lia). cbn [obind].
  rewrite expect_cons. cbn [obind].
  rewrite (take_digits_app 3) by (cbn; lia). cbn [obind].
  rewrite expect_cons. cbn [obind].
  replace (MonthFromTime t + 1 - 1) with (MonthFromTime t) by lia.
  rewrite MakeDay_fields, MakeTime_fields, MakeDate_fields.
  match goal with |- (if ?b then _ else _) = _ => replace b with true end.
  - unfold TimeClip. destruct (Z.leb_spec (Z.abs t) maxTime); [reflexivity | lia].
  - symmetry. autorewrite with date_bool. lia.
Qed.

Lemma parse_toISOString (t : Z) :
  Z.abs t <= maxTime ->
  exists s, toISOString (Some t) = inr s /\ parse s = Some t.
Proof.
  intros Ht. eexists. split; [reflexivity |].
  unfold parse. rewrite list_ascii_of_string_of_list_ascii.
  now apply parse_chars_iso.
Qed.

End DateFacts.

(** ** Facts about the handler *)

Module ServerFacts.
Import Server.

Lemma responses_app (tr1 tr2 : list Event) :
  responses (tr1 ++ tr2) = responses tr1 ++ responses tr2.
Proof.
  induction tr1 as [| ev tr1 IH]; [reflexivity |].
  destruct ev; cbn; now rewrite IH.
Qed.

(** [Math.floor(Math.random() * 4)] is one of 0, 1, 2, 3. *)
Lemma floor_draw_range (r : Q) (n : positive) :
  (0 <= r)%Q -> (r < 1)%Q -> 0 <= Math_floor (r * inject_Z (Z.pos n)) < Z.pos n.
Proof.
  intros H0 H1. destruct r as [a b].
  unfold Qle, Qlt in *. cbn in H0, H1.
  unfold Math_floor, Qfloor, Qmult, inject_Z. cbn [Qnum Qden].
  rewrite Pos.mul_1_r. split.
  - apply Z.div_pos; lia.
  - apply Z.div_lt_upper_bound; nia.
Qed.

(** The draw picks an entry of the catalog. *)
Lemma draw_in_catalog (r : Q) :
  (0 <= r)%Q -> (r < 1)%Q ->
  exists entry,
    index mockPredictions
      (Math_floor (r * inject_Z (Z.of_nat (List.length mockPredictions)))) = Some entry
    /\ In entry mockPredictions.
Proof.
  intros H0 H1.
  pose proof (floor_draw_range r 4 H0 H1) as Hi.
  change (Z.of_nat (List.length mockPredictions)) with 4.
  set (i := Math_floor (r * inject_Z 4)) in *.
  assert (Hc : i = 0 \/ i = 1 \/ i = 2 \/ i = 3) by lia.
  destruct Hc as [-> | [-> | [-> | ->]]]; eexists; (split; [reflexivity |]); cbn; auto.
Qed.

(** The run of the handler on a request with a file, while the clock is a
    valid time value. *)
Lemma handle_file_run (f : File) (w : World) :
  Z.abs (clock w + timer w 2000) <= JsDate.maxTime ->
  let r := rng w (drawn w) in
  let now := clock w + timer w 2000 in
  handleClassification (mkRequest (Some f)) w =
  (Ret tt,
   mkWorld now (timer w) (rng w) (S (drawn w))
     (trace w ++
      [EvTimeout 2000; EvRandom; EvDate;
       EvSend 200
         (spread (index mockPredictions
                    (Math_floor (r * inject_Z (Z.of_nat (List.length mockPredictions)))))
          ++ [("timestamp", JStr (string_of_list_ascii (JsDate.iso_chars now)))])])).
Proof.
  intros Hclock r now.
  unfold handleClassification, try_catch, handler_try, bind. cbn [file].
  unfold await_timeout, Math_random, Date_new, emit. cbn [clock timer rng drawn trace].
  unfold JsDate.TimeClip.
  destruct (Z.leb_spec (Z.abs (clock w + timer w 2000)) JsDate.maxTime) as [_ | Hbad];
    [| lia].
  cbn [Date_toISOString JsDate.toISOString ret res_json res_status_json].
  unfold emit. cbn [clock timer rng drawn trace].
  repeat rewrite <- app_assoc. reflexivity.
Qed.

(** The run of the handler when the clock is outside the range of time
    values: [toISOString] throws and the [catch] block answers. *)
Lemma handle_file_invalid_date (f : File) (w : World) :
  JsDate.maxTime < Z.abs (clock w + timer w 2000) ->
  handler_try (mkRequest (Some f)) w =
  (Throw (ErrorObject "Invalid time value"),
   mkWorld (clock w + timer w 2000) (timer w) (rng w) (S (drawn w))
     (trace w ++ [EvTimeout 2000; EvRandom; EvDate])).
Proof.
  intros Hclock.
  unfold handler_try, bind. cbn [file].
  unfold await_timeout, Math_random, Date_new, emit. cbn [clock timer rng drawn trace].
  unfold JsDate.TimeClip.
  destruct (Z.leb_spec (Z.abs (clock w + timer w 2000)) JsDate.maxTime) as [Hok | _];
    [lia |].
  cbn [Date_toISOString JsDate.toISOString throw].
  repeat rewrite <- app_assoc. reflexivity.
Qed.

(** The [try] block sends nothing before it throws. *)
Lemma handler_try_throw_silent (req : Request) (w w1 : World) (e : Thrown) :
  handler_try req w = (Throw e, w1) -> responses (trace w1) = responses (trace w).
Proof.
  destruct req as [[f |]]; unfold handler_try; cbn [file].
  - unfold bind, await_timeout, Math_random, Date_new, emit.
    cbn [clock timer rng drawn trace].
    destruct (JsDate.TimeClip (clock w + timer w 2000)) as [t |];
      cbn [Date_toISOString JsDate.toISOString ret throw res_json res_status_json].
    + discriminate.
    + intros H. injection H as _ <-. cbn [trace].
      rewrite !responses_app. cbn. now rewrite !app_nil_r.
  - discriminate.
Qed.

(** The catch block turns every thrown value into the 500 response. *)
Lemma handler_catch_run (e : Thrown) (w : World) :
  handler_catch e w
  = (Ret tt,
     emit (EvSend 500
             [("error", JStr "Failed to process image classification");
              ("details",
               JStr (match e with
                     | ErrorObject m => m
                     | OtherValue _ => "Unknown error"
                     end))])
       (emit (EvConsoleError "Classification error:" e) w)).
Proof. destruct e; reflexivity. Qed.

(** Every entry of the catalog is drawn for some value of
    [Math.random()]. *)
Lemma every_entry_drawn (entry : JsObject) :
  In entry mockPredictions ->
  exists r : Q,
    (0 <= r)%Q /\ (r < 1)%Q
    /\ index mockPredictions
         (Math_floor (r * inject_Z (Z.of_nat (List.length mockPredictions))))
       = Some entry.
Proof.
  cbn [mockPredictions In].
  intros [<- | [<- | [<- | [<- | []]]]];
    [exists 0%Q | exists (1 # 4) | exists (2 # 4) | exists (3 # 4)];
    (split; [discriminate | split; reflexivity]).
Qed.

End ServerFacts.

(** ** The contract of the classification endpoint *)

Import Server.

(** C1. A request that reaches the handler with a file gets one response,
    with status 200. Its body is an entry of the catalog with a timestamp
    added: the condition is one of the four names of the catalog, the
    confidence lies strictly between 0 and 1, the severity is low, medium
    or high, and the timestamp is an ISO-8601 date-time that reads back as
    a time value no earlier than the clock at the start of the request.
    The catalog has four entries: two of low, one of medium and one of high
    severity. The hypotheses are the platform's: [Math.random()] is in
    [0, 1), the wall clock does not run backwards during the delay, and it
    shows a valid time value. *)
Theorem classify_file_success (f : File) (w : World) :
  (0 <= rng w (drawn w))%Q ->
  (rng w (drawn w) < 1)%Q ->
  0 <= timer w 2000 ->
  Z.abs (clock w + timer w 2000) <= JsDate.maxTime ->
  exists (body : JsObject) (w' : World),
    handleClassification (mkRequest (Some f)) w = (Ret tt, w')
    /\ responses (trace w') = responses (trace w) ++ [(200, body)]
    /\ (exists entry ts,
          In entry mockPredictions /\ body = entry ++ [("timestamp", JStr ts)])
    /\ (exists name,
          get "condition" body = Some (JStr name) /\ In name catalog_conditions)
    /\ (exists c,
          get "confidence" body = Some (JNum c) /\ (0 < c)%Q /\ (c < 1)%Q)
    /\ (exists sev,
          get "severity" body = Some (JStr sev) /\ In sev ["low"; "medium"; "high"])
    /\ (exists ts t,
          get "timestamp" body = Some (JStr ts)
          /\ JsDate.parse ts = Some t /\ clock w <= t)
    /\ List.length mockPredictions = 4%nat
    /\ map (get "condition") mockPredictions
       = map (fun name => Some (JStr name)) catalog_conditions
    /\ severity_count "low" = 2%nat
    /\ severity_count "medium" = 1%nat
    /\ severity_count "high" = 1%nat.
Proof.
  intros Hr0 Hr1 Htimer Hclock.
  destruct (ServerFacts.draw_in_catalog _ Hr0 Hr1) as (entry & Hidx & Hin).
  eexists. eexists.
  split. { apply ServerFacts.handle_file_run. exact Hclock. }
  cbn [trace]. rewrite Hidx. cbn [spread].
  split.
  { rewrite ServerFacts.responses_app. reflexivity. }
  split.
  { exists entry. eexists. split; [exact Hin | reflexivity]. }
  assert (Hparse :
    JsDate.parse (string_of_list_ascii (JsDate.iso_chars (clock w + timer w 2000)))
    = Some (clock w + timer w 2000)).
  { unfold JsDate.parse. rewrite list_ascii_of_string_of_list_ascii.
    apply DateFacts.parse_chars_iso. exact Hclock. }
  set (ts := string_of_list_ascii _) in *.
  cbn in Hin.
  destruct Hin as [<- | [<- | [<- | [<- | []]]]];
    (split; [eexists; split; [reflexivity | cbn; tauto] |]);
    (split; [eexists; split; [reflexivity | split; reflexivity] |]);
    (split; [eexists; split; [reflexivity | cbn; tauto] |]);
    (split; [exists ts; eexists; split; [reflexivity | split; [exact Hparse | lia]] |]);
    repeat split.
Qed.

Lemma classify_file_success_witness :
  exists body,
    responses (trace (snd (handleClassification (mkRequest (Some example_upload)) example_world)))
    = [(200, body)]
    /\ get "condition" body = Some (JStr "Basal Cell Carcinoma")
    /\ get "timestamp" body = Some (JStr "2026-11-01T12:34:58.126Z").
Proof.
  destruct (classify_file_success example_upload example_world)
    as (body & w' & Hrun & Hresp & _).
  - vm_compute. discriminate.
  - reflexivity.
  - vm_compute. discriminate.
  - vm_compute. discriminate.
  - exists body. rewrite Hrun. cbn [snd]. rewrite Hresp.
    vm_compute in Hrun. injection Hrun as <-. cbn in Hresp.
    injection Hresp as <-. repeat split.
Defined.

(** C2. A request without a file gets status 400 with the body
    [{ error: "No image file provided" }], and that response is the only
    effect of the handler: no timer, no draw, no reading of the clock, no
    other response. *)
Theorem classify_missing_file (w : World) :
  exists w' : World,
    handleClassification (mkRequest None) w = (Ret tt, w')
    /\ route None w = Handled (Ret tt) w'
    /\ trace w' = trace w ++ [EvSend 400 [("error", JStr "No image file provided")]]
    /\ responses (trace w')
       = responses (trace w) ++ [(400, [("error", JStr "No image file provided")])]
    /\ clock w' = clock w
    /\ drawn w' = drawn w.
Proof.
  eexists. split; [reflexivity |].
  split; [reflexivity |].
  cbn [trace emit clock drawn].
  split; [reflexivity |].
  split; [| split; reflexivity].
  now rewrite ServerFacts.responses_app.
Qed.

(** C3. The file filter refuses a file whose MIME type does not begin with
    [image/] with the error "Only image files are allowed", and accepts a
    file whose MIME type begins with [image/]. On the route, a refused
    file never reaches the handler: sent under the field [image], the
    request ends with the filter's error; under any other field it is
    refused too, before the filter is asked. *)
Theorem upload_filter_images_only (f : File) :
  (startsWith (mimetype f) "image/" = false ->
   fileFilter f = (Some (ErrorObject "Only image files are allowed"), false)
   /\ (fieldname f = "image" ->
       forall w : World,
         route (Some f) w = RejectedByFilter (ErrorObject "Only image files are allowed"))
   /\ (forall (w : World) (out : Outcome unit) (w' : World),
         route (Some f) w <> Handled out w'))
  /\ (startsWith (mimetype f) "image/" = true -> fileFilter f = (None, true)).
Proof.
  split; intros Hmime.
  - assert (Hfilter : fileFilter f
                      = (Some (ErrorObject "Only image files are allowed"), false)).
    { unfold fileFilter. now rewrite Hmime. }
    split; [exact Hfilter |].
    split.
    + intros Hfield w. unfold route, uploadMiddleware, uploadField.
      rewrite Hfield, Hfilter. reflexivity.
    + intros w out w'. unfold route, uploadMiddleware.
      destruct (negb (String.eqb (fieldname f) uploadField)); [discriminate |].
      rewrite Hfilter. discriminate.
  - unfold fileFilter. now rewrite Hmime.
Qed.

Lemma upload_filter_images_only_witness :
  (forall w : World,
     route (Some (mkFile "image" "report.pdf" "application/pdf" [])) w
     = RejectedByFilter (ErrorObject "Only image files are allowed"))
  /\ (forall (w : World) (out : Outcome unit) (w' : World),
        route (Some (mkFile "photo" "report.pdf" "application/pdf" [])) w
        <> Handled out w')
  /\ fileFilter example_upload = (None, true).
Proof.
  split; [| split].
  - apply (upload_filter_images_only (mkFile "image" "report.pdf" "application/pdf" []));
      reflexivity.
  - apply (upload_filter_images_only (mkFile "photo" "report.pdf" "application/pdf" [])).
    reflexivity.
  - apply (upload_filter_images_only example_upload). reflexivity.
Defined.

(** C4. Every thrown value is caught. For every value [e] that can be
    thrown, the [catch] block logs it and answers with status 500 and the
    body [{ error: "Failed to process image classification", details }],
    where [details] is the message of [e] when [e] is an [Error] and
    "Unknown error" for any other value. So whatever the [try] block is
    and wherever in it [e] is thrown, the handler built from it returns
    normally and its last response is that one; for the [try] block of
    this handler it is the only response. *)
Theorem classify_failure_caught (e : Thrown) :
  exists details : string,
    (forall m, e = ErrorObject m -> details = m)
    /\ (forall v, e = OtherValue v -> details = "Unknown error")
    /\ (forall w : World,
          handler_catch e w
          = (Ret tt,
             emit (EvSend 500 [("error", JStr "Failed to process image classification");
                               ("details", JStr details)])
               (emit (EvConsoleError "Classification error:" e) w)))
    /\ (forall (body : M unit) (w w1 : World),
          body w = (Throw e, w1) ->
          exists w' : World,
            try_catch body handler_catch w = (Ret tt, w')
            /\ trace w'
               = trace w1 ++
                 [EvConsoleError "Classification error:" e;
                  EvSend 500 [("error", JStr "Failed to process image classification");
                              ("details", JStr details)]]
            /\ responses (trace w')
               = responses (trace w1) ++
                 [(500, [("error", JStr "Failed to process image classification");
                         ("details", JStr details)])])
    /\ (forall (req : Request) (w w1 : World),
          handler_try req w = (Throw e, w1) ->
          exists w' : World,
            handleClassification req w = (Ret tt, w')
            /\ responses (trace w')
               = responses (trace w) ++
                 [(500, [("error", JStr "Failed to process image classification");
                         ("details", JStr details)])]).
Proof.
  exists (if instanceof_Error e then message e else "Unknown error").
  assert (Hcatch : forall (body : M unit) (w w1 : World),
            body w = (Throw e, w1) ->
            try_catch body handler_catch w
            = (Ret tt,
               emit (EvSend 500
                       [("error", JStr "Failed to process image classification");
                        ("details",
                         JStr (if instanceof_Error e then message e else "Unknown error"))])
                 (emit (EvConsoleError "Classification error:" e) w1))).
  { intros body w w1 Hthrow. unfold try_catch. rewrite Hthrow. reflexivity. }
  split; [intros m ->; reflexivity |].
  split; [intros v ->; reflexivity |].
  split; [intros w; reflexivity |].
  split.
  - intros body w w1 Hthrow. eexists.
    split; [exact (Hcatch body w w1 Hthrow) |].
    cbn [trace emit]. split; [now rewrite <- app_assoc |].
    rewrite !ServerFacts.responses_app. cbn. now rewrite app_nil_r.
  - intros req w w1 Hthrow. eexists.
    split; [exact (Hcatch (handler_try req) w w1 Hthrow) |].
    cbn [trace emit]. rewrite !ServerFacts.responses_app.
    rewrite (ServerFacts.handler_try_throw_silent _ _ _ _ Hthrow).
    cbn. now rewrite app_nil_r.
Qed.

Lemma classify_failure_caught_witness :
  (exists w' : World,
     try_catch (res_json [("partial", JBool true)] ;; throw (OtherValue "ECONNRESET"))
       handler_catch example_world = (Ret tt, w')
     /\ responses (trace w')
        = [(200, [("partial", JBool true)]);
           (500, [("error", JStr "Failed to process image classification");
                  ("details", JStr "Unknown error")])])
  /\ (exists w' : World,
        handleClassification (mkRequest (Some example_upload)) late_world = (Ret tt, w')
        /\ responses (trace w')
           = [(500, [("error", JStr "Failed to process image classification");
                     ("details", JStr "Invalid time value")])]).
Proof.
  split.
  - destruct (classify_failure_caught (OtherValue "ECONNRESET"))
      as (details & _ & Hother & _ & Hbody & _).
    destruct (Hbody (res_json [("partial", JBool true)] ;; throw (OtherValue "ECONNRESET"))
                example_world
                (emit (EvSend 200 [("partial", JBool true)]) example_world) eq_refl)
      as (w' & Hrun & _ & Hresp).
    exists w'. split; [exact Hrun |].
    rewrite Hresp, (Hother _ eq_refl). reflexivity.
  - destruct (classify_failure_caught (ErrorObject "Invalid time value"))
      as (details & Hmsg & _ & _ & _ & Hhandler).
    destruct (Hhandler (mkRequest (Some example_upload)) late_world
                (mkWorld 9000000000002000 (fun ms => ms) (fun _ => 1 # 4) 1
                   [EvTimeout 2000; EvRandom; EvDate]) eq_refl)
      as (w' & Hrun & Hresp).
    exists w'. split; [exact Hrun |].
    rewrite Hresp, (Hmsg _ eq_refl). reflexivity.
Defined.

(** C7. The handler never looks at the uploaded file beyond its presence:
    two requests with a file present, run in the same world (same clock,
    same timer, same draws), end in the same outcome, the same world and so
    the same response. The same holds through the route for two uploads
    that both pass the upload bounds. *)
Theorem classify_ignores_content (f1 f2 : File) (w : World) :
  handleClassification (mkRequest (Some f1)) w
  = handleClassification (mkRequest (Some f2)) w
  /\ responses (trace (snd (handleClassification (mkRequest (Some f1)) w)))
     = responses (trace (snd (handleClassification (mkRequest (Some f2)) w)))
  /\ (uploadMiddleware (Some f1) = inr (mkRequest (Some f1)) ->
      uploadMiddleware (Some f2) = inr (mkRequest (Some f2)) ->
      route (Some f1) w = route (Some f2) w).
Proof.
  assert (Hsame : handleClassification (mkRequest (Some f1)) w
                  = handleClassification (mkRequest (Some f2)) w).
  { unfold handleClassification, handler_try. reflexivity. }
  split; [exact Hsame |].
  split; [now rewrite Hsame |].
  intros H1 H2. unfold route. now rewrite H1, H2, Hsame.
Qed.

Lemma classify_ignores_content_witness :
  route (Some example_upload) example_world
  = route (Some (mkFile "image" "other.jpg" "image/jpeg" [Byte.xff; Byte.xd8])) example_world.
Proof.
  apply (classify_ignores_content example_upload
           (mkFile "image" "other.jpg" "image/jpeg" [Byte.xff; Byte.xd8])
           example_world); reflexivity.
Defined.

(** ** The upload client *)

Module ClientFacts.
Import Client.

Lemma analyze_begin_selected (s : State) (image : File) :
  selectedImage s = Some image ->
  analyze_begin s
  = Some (setIsAnalyzing true s, [Fetch "/api/classify" "POST" [("image", image)]]).
Proof. intros H. unfold analyze_begin. now rewrite H. Qed.

Lemma analyze_settle_prediction (r : FetchSettled) (s : State) :
  prediction (fst (analyze_settle r s))
  = match analyze_try r with
    | inr result => result
    | inl _ => fallback
    end.
Proof. unfold analyze_settle. now destruct (analyze_try r). Qed.

(** The [finally] block runs on every path. *)
Lemma analyze_settle_flag (r : FetchSettled) (s : State) :
  isAnalyzing (fst (analyze_settle r s)) = false.
Proof. unfold analyze_settle. now destruct (analyze_try r). Qed.

(** Settling touches the prediction and the flag only. *)
Lemma analyze_settle_frame (r : FetchSettled) (s : State) :
  selectedImage (fst (analyze_settle r s)) = selectedImage s
  /\ imagePreview (fst (analyze_settle r s)) = imagePreview s
  /\ isDragOver (fst (analyze_settle r s)) = isDragOver s.
Proof. unfold analyze_settle. now destruct (analyze_try r). Qed.

Lemma analyzeImage_selected (s : State) (image : File) (r : FetchSettled)
      (meanwhile : State -> State) :
  selectedImage s = Some image ->
  fst (analyzeImage s r meanwhile)
  = fst (analyze_settle r (meanwhile (setIsAnalyzing true s))).
Proof.
  intros H. unfold analyzeImage. rewrite (analyze_begin_selected _ _ H).
  now destruct (analyze_settle r (meanwhile (setIsAnalyzing true s))).
Qed.

End ClientFacts.

Import Client.

(** C5. When an image is selected and the request fails (the fetch
    rejects, or the response status is not ok), the analyze action leaves
    the fallback result as the prediction: condition "Analysis Error",
    confidence 0, severity medium. When the response is ok and its body
    parses, the prediction is the parsed payload. *)
Theorem analyze_sets_prediction (s : State) (image : File) (r : FetchSettled)
        (meanwhile : State -> State) :
  selectedImage s = Some image ->
  (forall e, r = FetchRejected e ->
     prediction (fst (analyzeImage s r meanwhile)) = fallback)
  /\ (forall status json, r = FetchResponse status json -> ok status = false ->
        prediction (fst (analyzeImage s r meanwhile)) = fallback)
  /\ (forall status payload, r = FetchResponse status (inr payload) -> ok status = true ->
        prediction (fst (analyzeImage s r meanwhile)) = payload)
  /\ (exists fields,
        fallback = JObj fields
        /\ get "condition" fields = Some (JStr "Analysis Error")
        /\ get "confidence" fields = Some (JNum 0)
        /\ get "severity" fields = Some (JStr "medium")).
Proof.
  intros Hsel.
  rewrite (ClientFacts.analyzeImage_selected _ _ r meanwhile Hsel).
  rewrite ClientFacts.analyze_settle_prediction.
  split; [| split; [| split]].
  - intros e ->. reflexivity.
  - intros status json -> Hok. cbn [analyze_try]. now rewrite Hok.
  - intros status payload -> Hok. cbn [analyze_try]. now rewrite Hok.
  - eexists. split; [reflexivity |]. repeat split.
Qed.

Lemma analyze_sets_prediction_witness :
  prediction
    (fst (analyzeImage (setSelectedImage (Some example_image) initial)
            (FetchResponse 500 (inr (JObj [("error", JStr "Failed to process image classification")])))
            (fun s => s)))
  = fallback.
Proof.
  destruct (analyze_sets_prediction (setSelectedImage (Some example_image) initial)
              example_image
              (FetchResponse 500 (inr (JObj [("error", JStr "Failed to process image classification")])))
              (fun s => s) eq_refl)
    as (_ & Hhttp & _).
  apply (Hhttp 500 _ eq_refl). reflexivity.
Defined.

(** C8. After clear, no image is selected, there is no preview and no
    result, whatever the state was: the page shows the upload area and no
    result card. The two flags are left as they were, so from a state that
    is neither analyzing nor dragging the result is the initial state. *)
Theorem clear_resets (s : State) :
  selectedImage (clearImage s) = None
  /\ imagePreview (clearImage s) = None
  /\ prediction (clearImage s) = JNull
  /\ showsUploadArea (clearImage s) = true
  /\ showsResults (clearImage s) = false
  /\ clearImage s = mkState None None (isAnalyzing s) JNull (isDragOver s)
  /\ (isAnalyzing s = false -> isDragOver s = false -> clearImage s = initial).
Proof.
  assert (Hclear : clearImage s = mkState None None (isAnalyzing s) JNull (isDragOver s))
    by reflexivity.
  rewrite Hclear. cbn [selectedImage imagePreview prediction showsUploadArea showsResults].
  repeat split.
  intros -> ->. reflexivity.
Qed.

Lemma clear_resets_witness :
  clearImage
    (mkState (Some example_image) (Some "data:image/png;base64,iVBORw0KGgo=") false fallback false)
  = initial.
Proof.
  apply (clear_resets
           (mkState (Some example_image) (Some "data:image/png;base64,iVBORw0KGgo=")
              false fallback false)); reflexivity.
Defined.

(** C9. A drop whose first file is not of an [image/] type changes
    neither the selected image nor the preview nor the prediction, and
    starts no read. A file chosen through the file picker becomes the
    selected image whatever its type; a file of a type that is not
    [image/] is then refused by the server's file filter when uploaded. *)
Theorem drop_checks_type_picker_does_not (s : State) (f : File) (rest : list File) :
  (startsWith (type f) "image/" = false ->
   selectedImage (fst (handleDrop (f :: rest) s)) = selectedImage s
   /\ imagePreview (fst (handleDrop (f :: rest) s)) = imagePreview s
   /\ prediction (fst (handleDrop (f :: rest) s)) = prediction s
   /\ snd (handleDrop (f :: rest) s) = [PreventDefault])
  /\ selectedImage (fst (handleFileChange (Some (f :: rest)) s)) = Some f
  /\ snd (handleFileChange (Some (f :: rest)) s) = [ReadAsDataURL f]
  /\ (startsWith (type f) "image/" = false ->
      Server.fileFilter (multipart_part "image" f)
      = (Some (ErrorObject "Only image files are allowed"), false)).
Proof.
  split; [| split; [| split]].
  - intros Htype. unfold handleDrop. cbn [index Z.ltb Z.compare Z.to_nat nth_error].
    rewrite Htype. cbn. repeat split.
  - reflexivity.
  - reflexivity.
  - intros Htype. unfold Server.fileFilter, multipart_part. cbn [Server.mimetype].
    destruct (String.eqb (type f) "") eqn:Hempty.
    + reflexivity.
    + now rewrite Htype.
Qed.

Lemma drop_checks_type_picker_does_not_witness :
  fst (handleDrop [example_document] initial) = initial
  /\ selectedImage (fst (handleFileChange (Some [example_document]) initial))
     = Some example_document.
Proof.
  destruct (drop_checks_type_picker_does_not initial example_document [])
    as (Hdrop & Hpick & _).
  split; [| exact Hpick].
  destruct (Hdrop eq_refl) as (_ & _ & _ & _). reflexivity.
Defined.

(** C10. A complete execution of the analyze action with an image selected
    ends with the analyzing flag false, however the request settles and
    whatever happened to the state meanwhile; with no image selected the
    action returns at once, leaving the state as it is and asking nothing
    of the browser. *)
Theorem analyze_ends_not_analyzing (s : State) (r : FetchSettled)
        (meanwhile : State -> State) :
  (forall image, selectedImage s = Some image ->
     isAnalyzing (fst (analyzeImage s r meanwhile)) = false)
  /\ (selectedImage s = None ->
      analyze_begin s = None /\ analyzeImage s r meanwhile = (s, [])).
Proof.
  split.
  - intros image Hsel.
    rewrite (ClientFacts.analyzeImage_selected _ _ r meanwhile Hsel).
    apply ClientFacts.analyze_settle_flag.
  - intros Hnone. unfold analyzeImage, analyze_begin. now rewrite Hnone.
Qed.

Lemma analyze_ends_not_analyzing_witness :
  isAnalyzing
    (fst (analyzeImage (setSelectedImage (Some example_image) initial)
            (FetchRejected (ErrorObject "Failed to fetch")) clearImage)) = false
  /\ analyzeImage initial (FetchRejected (ErrorObject "Failed to fetch")) clearImage
     = (initial, []).
Proof.
  split.
  - apply (analyze_ends_not_analyzing (setSelectedImage (Some example_image) initial)
             (FetchRejected (ErrorObject "Failed to fetch")) clearImage)
      with (image := example_image).
    reflexivity.
  - apply (analyze_ends_not_analyzing initial
             (FetchRejected (ErrorObject "Failed to fetch")) clearImage).
    reflexivity.
Defined.

(** ** Further properties of the handler *)

Module HandlerFacts.
Import Server.

(** The whole run of the handler on a request with a file when the clock
    is outside the range of time values. *)
Lemma handle_file_invalid_run (f : Server.File) (w : World) :
  JsDate.maxTime < Z.abs (clock w + timer w 2000) ->
  handleClassification (mkRequest (Some f)) w =
  (Ret tt,
   mkWorld (clock w + timer w 2000) (timer w) (rng w) (S (drawn w))
     (trace w ++
      [EvTimeout 2000; EvRandom; EvDate;
       EvConsoleError "Classification error:" (ErrorObject "Invalid time value");
       EvSend 500 [("error", JStr "Failed to process image classification");
                   ("details", JStr "Invalid time value")]])).
Proof.
  intros Hclock. unfold handleClassification, try_catch.
  rewrite (ServerFacts.handle_file_invalid_date f w Hclock).
  rewrite ServerFacts.handler_catch_run. unfold emit. cbn [clock timer rng drawn trace].
  repeat rewrite <- app_assoc. reflexivity.
Qed.

(** [Math.floor(4 r) = k] for a draw in the [k]-th quarter of [0, 1). *)
Lemma floor_quarter (r : Q) (k : Z) :
  (k # 4 <= r)%Q -> (r < (k + 1) # 4)%Q -> Math_floor (r * inject_Z 4) = k.
Proof.
  destruct r as [a b]. unfold Qle, Qlt. cbn [Qnum Qden]. intros Hlo Hhi.
  unfold Math_floor, Qfloor, Qmult, inject_Z. cbn [Qnum Qden].
  rewrite Pos.mul_1_r.
  symmetry. apply (Z.div_unique_pos (a * 4) (Z.pos b) k (a * 4 - k * Z.pos b)); lia.
Qed.

(** The keys of every entry of the catalog. *)
Lemma catalog_keys (entry : JsObject) :
  In entry mockPredictions ->
  map fst entry = ["condition"; "confidence"; "severity"; "description"].
Proof.
  cbn [mockPredictions In]. intros [<- | [<- | [<- | [<- | []]]]]; reflexivity.
Qed.

Lemma index_In {A : Type} (l : list A) (i : Z) (x : A) :
  index l i = Some x -> In x l.
Proof.
  unfold index. destruct (i <? 0); [discriminate |]. apply nth_error_In.
Qed.

Lemma get_app_fresh (key : string) (o : JsObject) (v : JsVal) :
  ~ In key (map fst o) -> get key (o ++ [(key, v)]) = Some v.
Proof.
  induction o as [| [k x] o IH]; cbn; intros Hfresh.
  - now rewrite String.eqb_refl.
  - destruct (String.eqb_spec k key) as [-> | _]; [tauto |].
    apply IH. tauto.
Qed.

End HandlerFacts.

Import Server.

(** X1. Every run of the handler, on any request in any world, returns
    normally and sends exactly one response. Its status is 400 exactly
    when the request has no file and 200 exactly when it has one and the
    clock shows a valid time value after the delay; otherwise it is 500. *)
Theorem handler_answers_once (req : Request) (w : World) :
  exists (status : Z) (body : JsObject) (w' : World),
    handleClassification req w = (Ret tt, w')
    /\ responses (trace w') = responses (trace w) ++ [(status, body)]
    /\ (status = 200 \/ status = 400 \/ status = 500)
    /\ (status = 400 <-> file req = None)
    /\ (status = 200 <->
        file req <> None /\ Z.abs (clock w + timer w 2000) <= JsDate.maxTime).
Proof.
  destruct req as [[f |]].
  - destruct (Z.leb_spec (Z.abs (clock w + timer w 2000)) JsDate.maxTime) as [Hok | Hbad].
    + exists 200. eexists. eexists.
      split; [apply (ServerFacts.handle_file_run f w Hok) |].
      cbn [trace file]. rewrite ServerFacts.responses_app. cbn [responses].
      split; [reflexivity |]. split; [auto |].
      split; split; try discriminate; auto. split; [discriminate | exact Hok].
    + exists 500. eexists. eexists.
      split; [apply (HandlerFacts.handle_file_invalid_run f w Hbad) |].
      cbn [trace file]. rewrite ServerFacts.responses_app. cbn [responses].
      split; [reflexivity |]. split; [auto |].
      split; split; try discriminate. intros [_ Hok]. lia.
  - exists 400. eexists. eexists.
    split; [reflexivity |].
    cbn [trace emit file]. rewrite ServerFacts.responses_app. cbn [responses].
    split; [reflexivity |]. split; [auto |].
    split; split; try discriminate; auto. intros [Hfile _]. now elim Hfile.
Qed.

(** X2. The draw alone picks the entry: a value of [Math.random()] in the
    [k]-th quarter of [0, 1), for [k] from 0 to 3, makes the response carry
    the [k]-th entry of the catalog. *)
Theorem draw_selects_quarter (f : Server.File) (w : World) (k : Z) :
  0 <= k < 4 ->
  (k # 4 <= rng w (drawn w))%Q ->
  (rng w (drawn w) < (k + 1) # 4)%Q ->
  Z.abs (clock w + timer w 2000) <= JsDate.maxTime ->
  exists entry ts,
    nth_error mockPredictions (Z.to_nat k) = Some entry
    /\ responses (trace (snd (handleClassification (mkRequest (Some f)) w)))
       = responses (trace w) ++ [(200, entry ++ [("timestamp", JStr ts)])].
Proof.
  intros Hk Hlo Hhi Hclock.
  rewrite (ServerFacts.handle_file_run f w Hclock). cbn [snd trace].
  change (Z.of_nat (List.length mockPredictions)) with 4.
  rewrite (HandlerFacts.floor_quarter _ k Hlo Hhi).
  rewrite ServerFacts.responses_app. cbn [responses].
  assert (Hc : k = 0 \/ k = 1 \/ k = 2 \/ k = 3) by lia.
  destruct Hc as [-> | [-> | [-> | ->]]]; eexists; eexists; split; reflexivity.
Qed.

Lemma draw_selects_quarter_witness :
  exists ts,
    responses (trace (snd (handleClassification (mkRequest (Some example_upload)) example_world)))
    = [(200, prediction "Basal Cell Carcinoma" (83 # 100) "medium"
               "Possible skin cancer detected. Recommend dermatological evaluation for confirmation and treatment planning."
             ++ [("timestamp", JStr ts)])].
Proof.
  destruct (draw_selects_quarter example_upload example_world 3)
    as (entry & ts & Hentry & Hresp).
  - lia.
  - vm_compute. discriminate.
  - reflexivity.
  - vm_compute. discriminate.
  - exists ts. cbn in Hentry. injection Hentry as <-. exact Hresp.
Defined.

(** X3. The shape of a success response does not depend on the draw: its
    keys are condition, confidence, severity, description and timestamp,
    in this order. *)
Theorem success_body_keys (f : Server.File) (w : World) :
  (0 <= rng w (drawn w))%Q ->
  (rng w (drawn w) < 1)%Q ->
  Z.abs (clock w + timer w 2000) <= JsDate.maxTime ->
  exists body,
    responses (trace (snd (handleClassification (mkRequest (Some f)) w)))
    = responses (trace w) ++ [(200, body)]
    /\ map fst body
       = ["condition"; "confidence"; "severity"; "description"; "timestamp"].
Proof.
  intros Hr0 Hr1 Hclock.
  rewrite (ServerFacts.handle_file_run f w Hclock). cbn [snd trace].
  destruct (ServerFacts.draw_in_catalog _ Hr0 Hr1) as (entry & -> & Hin).
  rewrite ServerFacts.responses_app. cbn [responses spread].
  eexists. split; [reflexivity |].
  rewrite map_app, (HandlerFacts.catalog_keys _ Hin). reflexivity.
Qed.

Lemma success_body_keys_witness :
  exists body,
    responses (trace (snd (handleClassification (mkRequest (Some example_upload)) example_world)))
    = [(200, body)]
    /\ map fst body
       = ["condition"; "confidence"; "severity"; "description"; "timestamp"].
Proof.
  apply (success_body_keys example_upload example_world).
  - vm_compute. discriminate.
  - reflexivity.
  - vm_compute. discriminate.
Defined.

(** X4. The timestamp is the clock after the delay, not the clock at the
    start of the request: it reads back as the start time plus the time
    the timer took, so at least 2000 ms after the start when the timer
    takes no less than it was set to. This holds whatever the draw is. *)
Theorem timestamp_after_delay (f : Server.File) (w : World) :
  Z.abs (clock w + timer w 2000) <= JsDate.maxTime ->
  exists body ts,
    responses (trace (snd (handleClassification (mkRequest (Some f)) w)))
    = responses (trace w) ++ [(200, body)]
    /\ get "timestamp" body = Some (JStr ts)
    /\ JsDate.parse ts = Some (clock w + timer w 2000)
    /\ (2000 <= timer w 2000 ->
        exists t, JsDate.parse ts = Some t /\ clock w + 2000 <= t).
Proof.
  intros Hclock.
  rewrite (ServerFacts.handle_file_run f w Hclock). cbn [snd trace].
  rewrite ServerFacts.responses_app. cbn [responses].
  eexists. eexists. split; [reflexivity |].
  assert (Hparse :
    JsDate.parse (string_of_list_ascii (JsDate.iso_chars (clock w + timer w 2000)))
    = Some (clock w + timer w 2000)).
  { unfold JsDate.parse. rewrite list_ascii_of_string_of_list_ascii.
    apply DateFacts.parse_chars_iso. exact Hclock. }
  split.
  - apply HandlerFacts.get_app_fresh.
    destruct (index mockPredictions _) as [entry |] eqn:Hidx; cbn [spread].
    + rewrite (HandlerFacts.catalog_keys _ (HandlerFacts.index_In _ _ _ Hidx)).
      cbn. intros [H | [H | [H | [H | []]]]]; discriminate H.
    + intros [].
  - split; [exact Hparse |].
    intros Htimer. eexists. split; [exact Hparse | lia].
Qed.

Lemma timestamp_after_delay_witness :
  exists body,
    responses (trace (snd (handleClassification (mkRequest (Some example_upload)) example_world)))
    = [(200, body)]
    /\ get "timestamp" body = Some (JStr "2026-11-01T12:34:58.126Z").
Proof.
  destruct (timestamp_after_delay example_upload example_world)
    as (body & ts & Hresp & Hts & _).
  - vm_compute. discriminate.
  - exists body. split; [exact Hresp |].
    vm_compute in Hresp. injection Hresp as <-. reflexivity.
Defined.

(** X5. When the clock after the delay is outside the range of time
    values, [toISOString] throws and the request with a file ends in one
    500 response with details "Invalid time value"; no success response is
    sent. *)
Theorem invalid_clock_answers_500 (f : Server.File) (w : World) :
  JsDate.maxTime < Z.abs (clock w + timer w 2000) ->
  responses (trace (snd (handleClassification (mkRequest (Some f)) w)))
  = responses (trace w) ++
    [(500, [("error", JStr "Failed to process image classification");
            ("details", JStr "Invalid time value")])].
Proof.
  intros Hclock.
  rewrite (HandlerFacts.handle_file_invalid_run f w Hclock). cbn [snd trace].
  now rewrite ServerFacts.responses_app.
Qed.

Lemma invalid_clock_answers_500_witness :
  responses (trace (snd (handleClassification (mkRequest (Some example_upload)) late_world)))
  = [(500, [("error", JStr "Failed to process image classification");
            ("details", JStr "Invalid time value")])].
Proof.
  apply (invalid_clock_answers_500 example_upload late_world).
  vm_compute. reflexivity.
Defined.

(** X6. With a file present the handler, in every world, first awaits one
    timer of 2000 ms, then takes one draw, then reads the clock, and only
    then logs or sends: the clock has advanced by the time the timer took
    and exactly one draw is used, also on the failing path. *)
Theorem file_request_effects (f : Server.File) (w : World) :
  exists (w' : World) (rest : list Event),
    handleClassification (mkRequest (Some f)) w = (Ret tt, w')
    /\ trace w' = trace w ++ [EvTimeout 2000; EvRandom; EvDate] ++ rest
    /\ List.length (responses rest) = 1%nat
    /\ clock w' = clock w + timer w 2000
    /\ drawn w' = S (drawn w).
Proof.
  destruct (Z.leb_spec (Z.abs (clock w + timer w 2000)) JsDate.maxTime) as [Hok | Hbad].
  - eexists. eexists.
    split; [apply (ServerFacts.handle_file_run f w Hok) |].
    cbn [trace clock drawn]. split; [reflexivity |]. repeat split.
  - eexists. eexists.
    split; [apply (HandlerFacts.handle_file_invalid_run f w Hbad) |].
    cbn [trace clock drawn]. split; [reflexivity |]. repeat split.
Qed.

(** ** Further properties of the page *)

Module PageFacts.
Import Client Render.

(** Only [analyzeImage] writes [isAnalyzing] and only it starts a
    request. *)
Lemma handleImageSelect_quiet (f : File) (s : State) :
  isAnalyzing (fst (handleImageSelect f s)) = isAnalyzing s
  /\ filter is_fetch (snd (handleImageSelect f s)) = [].
Proof. split; reflexivity. Qed.

Lemma handleDrop_quiet (files : list File) (s : State) :
  isAnalyzing (fst (handleDrop files s)) = isAnalyzing s
  /\ filter is_fetch (snd (handleDrop files s)) = [].
Proof.
  unfold handleDrop. destruct (index files 0) as [f |]; [| now split].
  destruct (startsWith (type f) "image/"); now split.
Qed.

Lemma handleFileChange_quiet (files : option (list File)) (s : State) :
  isAnalyzing (fst (handleFileChange files s)) = isAnalyzing s
  /\ filter is_fetch (snd (handleFileChange files s)) = [].
Proof.
  unfold handleFileChange. destruct files as [l |]; [| now split].
  destruct (index l 0); now split.
Qed.

(** At most one request: one is in flight exactly while [isAnalyzing]. *)
Definition one_request (p : Page) : Prop :=
  requests p = if isAnalyzing (state p) then 1%nat else 0%nat.

Lemma step_one_request (p p' : Page) (ev : UiEvent) :
  one_request p -> step p ev = Some p' -> one_request p'.
Proof.
  unfold one_request. destruct p as [s rd rq]. cbn [state requests reads].
  intros Hinv.
  destruct ev; cbn [step state requests reads].
  - destruct (enabled UploadArea s); [| discriminate].
    intros [= <-]. cbn. rewrite Hinv. apply Nat.add_0_r.
  - destruct (enabled UploadArea s); [| discriminate].
    intros [= <-]. cbn. rewrite Hinv. apply Nat.add_0_r.
  - destruct (enabled UploadArea s); [| discriminate].
    intros [= <-]. unfold after. cbn [state requests].
    destruct (handleDrop_quiet files s) as [-> ->]. cbn. rewrite Hinv. apply Nat.add_0_r.
  - destruct (enabled UploadArea s); [| discriminate].
    intros [= <-]. unfold after. cbn [state requests].
    destruct (handleFileChange_quiet files s) as [-> ->]. cbn. rewrite Hinv.
    apply Nat.add_0_r.
  - unfold enabled, analyze_begin.
    destruct (rendered AnalyzeButton s); [| discriminate].
    destruct (isAnalyzing s) eqn:Hflag; [discriminate |]. cbn [negb andb].
    destruct (selectedImage s).
    + intros [= <-]. cbn. rewrite Hinv. reflexivity.
    + intros [= <-]. cbn. now rewrite Hflag.
  - destruct (enabled ClearButton s); [| discriminate].
    intros [= <-]. cbn. rewrite Hinv. apply Nat.add_0_r.
  - destruct rd; [discriminate |]. intros [= <-]. cbn. exact Hinv.
  - destruct rq as [| n]; [discriminate |]. intros [= <-]. cbn [state requests].
    rewrite ClientFacts.analyze_settle_flag.
    destruct (isAnalyzing s); now inversion Hinv.
Qed.

Lemma run_one_request (evs : list UiEvent) :
  forall p p' : Page, one_request p -> run evs p = Some p' -> one_request p'.
Proof.
  induction evs as [| ev evs IH]; cbn [run]; intros p p' Hinv Hrun.
  - now injection Hrun as <-.
  - destruct (step p ev) as [q |] eqn:Hstep; [| discriminate].
    apply (IH q p'); [| exact Hrun].
    apply (step_one_request p q ev Hinv Hstep).
Qed.

End PageFacts.

Import Client Render.

(** X7. Of the files of a drop or of a file-picker change only the first
    counts: further files change nothing. With no file at all, a drop only
    resets the drag highlight and a change of the picker does nothing. *)
Theorem only_first_file_counts (f : File) (rest : list File) (s : State) :
  handleDrop (f :: rest) s = handleDrop [f] s
  /\ handleFileChange (Some (f :: rest)) s = handleFileChange (Some [f]) s
  /\ handleDrop [] s = (setIsDragOver false s, [PreventDefault])
  /\ handleFileChange (Some []) s = (s, [])
  /\ handleFileChange None s = (s, []).
Proof.
  split; [| split; [| split; [| split]]]; try reflexivity.
Qed.

(** X8. Selecting a file, by dropping an image or by picking any file,
    discards the result shown before: the file becomes the selected image,
    the prediction is null, exactly one read of the file is started and
    nothing else is asked of the browser, and the preview and the
    analyzing flag stay as they are until the read completes. A drop also
    clears the drag highlight; the picker leaves it as it is. *)
Theorem selection_discards_result (f : File) (rest : list File) (s : State) :
  (startsWith (type f) "image/" = true ->
   selectedImage (fst (handleDrop (f :: rest) s)) = Some f
   /\ prediction (fst (handleDrop (f :: rest) s)) = JNull
   /\ showsResults (fst (handleDrop (f :: rest) s)) = false
   /\ imagePreview (fst (handleDrop (f :: rest) s)) = imagePreview s
   /\ isAnalyzing (fst (handleDrop (f :: rest) s)) = isAnalyzing s
   /\ isDragOver (fst (handleDrop (f :: rest) s)) = false
   /\ snd (handleDrop (f :: rest) s) = [PreventDefault; ReadAsDataURL f])
  /\ selectedImage (fst (handleFileChange (Some (f :: rest)) s)) = Some f
  /\ prediction (fst (handleFileChange (Some (f :: rest)) s)) = JNull
  /\ showsResults (fst (handleFileChange (Some (f :: rest)) s)) = false
  /\ imagePreview (fst (handleFileChange (Some (f :: rest)) s)) = imagePreview s
  /\ isAnalyzing (fst (handleFileChange (Some (f :: rest)) s)) = isAnalyzing s
  /\ isDragOver (fst (handleFileChange (Some (f :: rest)) s)) = isDragOver s
  /\ snd (handleFileChange (Some (f :: rest)) s) = [ReadAsDataURL f].
Proof.
  split.
  - intros Htype. unfold handleDrop. cbn [index Z.ltb Z.compare Z.to_nat nth_error].
    rewrite Htype. cbn. repeat split.
  - cbn. repeat split.
Qed.

Lemma selection_discards_result_witness :
  fst (handleDrop [example_image] (mkState None None false fallback true))
  = mkState (Some example_image) None false JNull false
  /\ handleFileChange (Some [example_document]) (mkState None None false fallback true)
     = (mkState (Some example_document) None false JNull true,
        [ReadAsDataURL example_document]).
Proof.
  destruct (selection_discards_result example_image []
              (mkState None None false fallback true)) as (Hdrop & _).
  destruct (Hdrop eq_refl) as (Hsel & Hpred & _ & Hprev & Hflag & Hdrag & _).
  destruct (selection_discards_result example_document []
              (mkState None None false fallback true))
    as (_ & Psel & Ppred & _ & Pprev & Pflag & Pdrag & Pcmds).
  split.
  - destruct (fst (handleDrop [example_image] (mkState None None false fallback true)))
      as [a b c d e'].
    cbn in Hsel, Hpred, Hprev, Hflag, Hdrag. now subst.
  - destruct (handleFileChange (Some [example_document])
                (mkState None None false fallback true)) as [[a b c d e'] cmds].
    cbn in Psel, Ppred, Pprev, Pflag, Pdrag, Pcmds. now subst.
Defined.

(** X9. On every page reached from the initial page by user actions, file
    reads completing and requests settling, at most one request is in
    flight, and one is in flight exactly while [isAnalyzing] is true;
    while it is, a click on the analyze button cannot happen. *)
Theorem single_request_in_flight (evs : list UiEvent) (p : Page) :
  run evs initial_page = Some p ->
  requests p = (if isAnalyzing (state p) then 1%nat else 0%nat)
  /\ (requests p <= 1)%nat
  /\ (isAnalyzing (state p) = true -> step p ClickAnalyze = None).
Proof.
  intros Hrun.
  assert (Hinv : PageFacts.one_request p).
  { apply (PageFacts.run_one_request evs initial_page p); [reflexivity | exact Hrun]. }
  unfold PageFacts.one_request in Hinv.
  split; [exact Hinv |]. split.
  - rewrite Hinv. destruct (isAnalyzing (state p)); auto.
  - intros Hflag. cbn [step]. unfold enabled. rewrite Hflag.
    now rewrite andb_false_r.
Qed.

Lemma single_request_in_flight_witness :
  exists p,
    run [Pick (Some [example_image]); ReaderLoaded (Some "data:image/png;base64,iVBORw==");
         ClickAnalyze] initial_page = Some p
    /\ requests p = 1%nat
    /\ step p ClickAnalyze = None.
Proof.
  eexists. split; [reflexivity |].
  destruct (single_request_in_flight
              [Pick (Some [example_image]);
               ReaderLoaded (Some "data:image/png;base64,iVBORw=="); ClickAnalyze]
              _ eq_refl) as (Hreq & _ & Hclick).
  split; [exact Hreq | apply Hclick; reflexivity].
Defined.

(** X10. Clear does not cancel an analysis in flight. After picking a
    file, seeing its preview, clicking analyze and then clear, the settling
    request still writes its result: the page ends with no image selected
    and no preview but with a prediction, the payload or the fallback; on a
    failed request the result card with "Analysis Error" is shown over the
    empty upload area. *)
Theorem clear_does_not_cancel (f : File) (url : string) (r : FetchSettled) :
  String.eqb url "" = false ->
  exists p,
    run [Pick (Some [f]); ReaderLoaded (Some url); ClickAnalyze; ClickClear;
         RequestSettled r] initial_page = Some p
    /\ selectedImage (state p) = None
    /\ imagePreview (state p) = None
    /\ showsUploadArea (state p) = true
    /\ isAnalyzing (state p) = false
    /\ prediction (state p)
       = match analyze_try r with
         | inr result => result
         | inl _ => fallback
         end
    /\ (forall e, analyze_try r = inl e -> showsResults (state p) = true).
Proof.
  intros Hurl. destruct url as [| c url]; [discriminate Hurl |].
  eexists. split; [cbn -[analyze_settle]; reflexivity |].
  cbn [state]. unfold analyze_settle.
  destruct (analyze_try r) as [e | result]; cbn; repeat split.
  intros e' H. discriminate H.
Qed.

Lemma clear_does_not_cancel_witness :
  exists p,
    run [Pick (Some [example_image]); ReaderLoaded (Some "data:image/png;base64,iVBORw==");
         ClickAnalyze; ClickClear;
         RequestSettled (FetchRejected (ErrorObject "Failed to fetch"))] initial_page
    = Some p
    /\ selectedImage (state p) = None
    /\ prediction (state p) = fallback.
Proof.
  destruct (clear_does_not_cancel example_image "data:image/png;base64,iVBORw=="
              (FetchRejected (ErrorObject "Failed to fetch")) eq_refl)
    as (p & Hrun & Hsel & _ & _ & _ & Hpred & _).
  exists p. split; [exact Hrun |]. split; [exact Hsel | exact Hpred].
Defined.

(** X11. A file read that completes after clear brings a preview back
    although no image is selected. After picking two files in a row, the
    first preview, clear, and the second read completing, the preview with
    the analyze button is shown, and a click on analyze does nothing: no
    request, no change of the page. *)
Theorem late_read_after_clear (a b : File) (url_a url_b : string) :
  String.eqb url_a "" = false ->
  String.eqb url_b "" = false ->
  exists p,
    run [Pick (Some [a]); Pick (Some [b]); ReaderLoaded (Some url_a); ClickClear;
         ReaderLoaded (Some url_b)] initial_page = Some p
    /\ imagePreview (state p) = Some url_b
    /\ selectedImage (state p) = None
    /\ enabled AnalyzeButton (state p) = true
    /\ step p ClickAnalyze = Some p.
Proof.
  intros Ha Hb.
  destruct url_a as [| ca url_a]; [discriminate Ha |].
  destruct url_b as [| cb url_b]; [discriminate Hb |].
  eexists. split; [cbn; reflexivity |].
  cbn. repeat split.
Qed.

Lemma late_read_after_clear_witness :
  exists p,
    run [Pick (Some [example_image]); Pick (Some [example_document]);
         ReaderLoaded (Some "data:image/png;base64,iVBORw=="); ClickClear;
         ReaderLoaded (Some "data:application/pdf;base64,JVBERg==")] initial_page = Some p
    /\ selectedImage (state p) = None
    /\ step p ClickAnalyze = Some p.
Proof.
  destruct (late_read_after_clear example_image example_document
              "data:image/png;base64,iVBORw==" "data:application/pdf;base64,JVBERg=="
              eq_refl eq_refl)
    as (p & Hrun & _ & Hsel & _ & Hclick).
  exists p. split; [exact Hrun |]. split; [exact Hsel | exact Hclick].
Defined.

(** X12. The badge colour: green for low, yellow for medium, red for
    high, and the gray default exactly for every other string; the
    comparison is exact, so a severity in other letter case is gray. *)
Theorem severity_color_table (severity : string) :
  (severity = "low" ->
   getSeverityColor severity = "bg-green-100 text-green-800 border-green-200")
  /\ (severity = "medium" ->
      getSeverityColor severity = "bg-yellow-100 text-yellow-800 border-yellow-200")
  /\ (severity = "high" ->
      getSeverityColor severity = "bg-red-100 text-red-800 border-red-200")
  /\ (getSeverityColor severity = "bg-gray-100 text-gray-800 border-gray-200"
      <-> ~ In severity ["low"; "medium"; "high"]).
Proof.
  split; [intros ->; reflexivity |].
  split; [intros ->; reflexivity |].
  split; [intros ->; reflexivity |].
  unfold getSeverityColor.
  destruct (String.eqb_spec severity "low") as [-> | Hlow].
  { split; [discriminate | intros H; elim H; cbn; auto]. }
  destruct (String.eqb_spec severity "medium") as [-> | Hmed].
  { split; [discriminate | intros H; elim H; cbn; auto]. }
  destruct (String.eqb_spec severity "high") as [-> | Hhigh].
  { split; [discriminate | intros H; elim H; cbn; auto]. }
  split; [| reflexivity].
  intros _ [H | [H | [H | []]]]; congruence.
Qed.

Lemma severity_color_table_witness :
  getSeverityColor "high" = "bg-red-100 text-red-800 border-red-200"
  /\ getSeverityColor "High" = "bg-gray-100 text-gray-800 border-gray-200".
Proof.
  split.
  - apply (severity_color_table "high"). reflexivity.
  - apply (severity_color_table "High").
    cbn. intros [H | [H | [H | []]]]; discriminate H.
Defined.

(** X13. The badge icon is the check mark exactly for severity low; every
    other string, medium and high included, gets the alert icon. *)
Theorem severity_icon_check_iff_low (severity : string) :
  (getSeverityIcon severity = CheckCircle2 <-> severity = "low")
  /\ (getSeverityIcon severity = AlertCircle <-> severity <> "low").
Proof.
  unfold getSeverityIcon.
  destruct (String.eqb_spec severity "low") as [-> | Hlow].
  - split; split; try reflexivity; try discriminate. intros H. now elim H.
  - destruct (String.eqb severity "medium"), (String.eqb severity "high");
      (split; split; [discriminate | intros H; now elim Hlow | auto | auto]).
Qed.

(** X14. An analysis sends one request and never retries: a complete
    execution with an image selected asks the browser for exactly one
    fetch, a POST to /api/classify whose form data is the image selected
    when the action started under the field "image", whatever the outcome
    and whatever happens to the state meanwhile; it starts no file read. *)
Theorem analyze_sends_one_request (s : State) (image : File) (r : FetchSettled)
        (meanwhile : State -> State) :
  selectedImage s = Some image ->
  filter is_fetch (snd (analyzeImage s r meanwhile))
  = [Fetch "/api/classify" "POST" [("image", image)]]
  /\ filter is_read (snd (analyzeImage s r meanwhile)) = []
  /\ hd_error (snd (analyzeImage s r meanwhile))
     = Some (Fetch "/api/classify" "POST" [("image", image)]).
Proof.
  intros Hsel. unfold analyzeImage.
  rewrite (ClientFacts.analyze_begin_selected _ _ Hsel).
  unfold analyze_settle.
  destruct (analyze_try r); cbn; repeat split.
Qed.

Lemma analyze_sends_one_request_witness :
  filter is_fetch
    (snd (analyzeImage (setSelectedImage (Some example_image) initial)
            (FetchResponse 500 (inl (OtherValue "not JSON")))
            (setSelectedImage (Some example_document))))
  = [Fetch "/api/classify" "POST" [("image", example_image)]].
Proof.
  apply (analyze_sends_one_request (setSelectedImage (Some example_image) initial)
           example_image). reflexivity.
Defined.

(** X15. Whatever the handler answers, the client ends with a result it
    can render. For a request in any world whose draw is in [0, 1), and a
    client with an image selected that receives the handler's response:
    the prediction is the response body when the status is 200 and the
    fallback otherwise (the error body of a 400 or 500 is never shown); in
    both cases it is an object whose severity is low, medium or high, so
    the badge is never the gray default, and the result card is shown. *)
Theorem exchange_always_renders (req : Request) (w : World) (s : State)
        (image : File) (meanwhile : State -> State) :
  (0 <= rng w (drawn w))%Q ->
  (rng w (drawn w) < 1)%Q ->
  selectedImage s = Some image ->
  exists (status : Z) (body fields : JsObject) (severity : string),
    responses (trace (snd (handleClassification req w)))
    = responses (trace w) ++ [(status, body)]
    /\ prediction (fst (analyzeImage s (settled_by (status, body)) meanwhile))
       = JObj fields
    /\ (status = 200 -> fields = body)
    /\ (status <> 200 -> JObj fields = fallback)
    /\ get "severity" fields = Some (JStr severity)
    /\ In severity ["low"; "medium"; "high"]
    /\ getSeverityColor severity <> "bg-gray-100 text-gray-800 border-gray-200"
    /\ showsResults (fst (analyzeImage s (settled_by (status, body)) meanwhile)) = true.
Proof.
  intros Hr0 Hr1 Hsel.
  assert (Hshow : forall st bd fs,
            prediction (fst (analyzeImage s (settled_by (st, bd)) meanwhile)) = JObj fs ->
            showsResults (fst (analyzeImage s (settled_by (st, bd)) meanwhile)) = true).
  { intros st bd fs H. unfold showsResults. now rewrite H. }
  assert (Herr : forall st bd, ok st = false ->
            prediction (fst (analyzeImage s (settled_by (st, bd)) meanwhile)) = fallback).
  { intros st bd Hok.
    rewrite (ClientFacts.analyzeImage_selected _ _ _ meanwhile Hsel).
    rewrite ClientFacts.analyze_settle_prediction. cbn. now rewrite Hok. }
  destruct req as [[f |]].
  - destruct (Z.leb_spec (Z.abs (clock w + timer w 2000)) JsDate.maxTime) as [Hok | Hbad].
    + rewrite (ServerFacts.handle_file_run f w Hok). cbn [snd trace].
      destruct (ServerFacts.draw_in_catalog _ Hr0 Hr1) as (entry & -> & Hin).
      rewrite ServerFacts.responses_app. cbn [responses spread].
      assert (Hpred :
        prediction (fst (analyzeImage s
                           (settled_by (200, entry ++ [("timestamp",
                              JStr (string_of_list_ascii
                                      (JsDate.iso_chars (clock w + timer w 2000))))]))
                           meanwhile))
        = JObj (entry ++ [("timestamp",
                  JStr (string_of_list_ascii (JsDate.iso_chars (clock w + timer w 2000))))])).
      { rewrite (ClientFacts.analyzeImage_selected _ _ _ meanwhile Hsel).
        rewrite ClientFacts.analyze_settle_prediction. reflexivity. }
      set (ts := string_of_list_ascii _) in *.
      cbn [mockPredictions In] in Hin.
      destruct Hin as [<- | [<- | [<- | [<- | []]]]];
        (exists 200; eexists; eexists; eexists;
         split; [reflexivity |];
         split; [exact Hpred |];
         split; [reflexivity |];
         split; [intros H; now elim H |];
         split; [reflexivity |];
         split; [cbn; tauto |];
         split; [discriminate | exact (Hshow _ _ _ Hpred)]).
    + rewrite (HandlerFacts.handle_file_invalid_run f w Hbad). cbn [snd trace].
      rewrite ServerFacts.responses_app. cbn [responses].
      exists 500. eexists. eexists. exists "medium".
      split; [reflexivity |].
      split; [apply Herr; reflexivity |].
      split; [discriminate |].
      split; [reflexivity |].
      split; [reflexivity |].
      split; [cbn; tauto |].
      split; [discriminate |].
      apply (Hshow 500 _ _ (Herr 500 _ eq_refl)).
  - cbn [handleClassification snd trace].
    exists 400. eexists. eexists. exists "medium".
    split; [cbn; rewrite ServerFacts.responses_app; reflexivity |].
    split; [apply Herr; reflexivity |].
    split; [discriminate |].
    split; [reflexivity |].
    split; [reflexivity |].
    split; [cbn; tauto |].
    split; [discriminate |].
    apply (Hshow 400 _ _ (Herr 400 _ eq_refl)).
Qed.

Lemma exchange_always_renders_witness :
  exists fields,
    prediction
      (fst (analyzeImage (setSelectedImage (Some example_image) initial)
              (settled_by (400, [("error", JStr "No image file provided")]))
              (fun s => s)))
    = JObj fields
    /\ get "condition" fields = Some (JStr "Analysis Error").
Proof.
  destruct (exchange_always_renders (mkRequest None) example_world
              (setSelectedImage (Some example_image) initial) example_image (fun s => s))
    as (status & body & fields & severity & Hresp & Hpred & _ & Hfall & _).
  - vm_compute. discriminate.
  - reflexivity.
  - reflexivity.
  - cbn in Hresp. injection Hresp as <- <-.
    exists fields. split; [exact Hpred |].
    assert (Hf : JObj fields = fallback) by (apply Hfall; discriminate).
    injection Hf as ->. reflexivity.
Defined.

Module TimestampFacts.

Lemma digits_length (k : nat) (n : Z) : List.length (JsDate.digits k n) = k.
Proof.
  revert n. induction k as [| k IH]; intros n; [reflexivity |].
  cbn [JsDate.digits]. rewrite length_app, IH. cbn. lia.
Qed.

Lemma string_of_list_ascii_length (l : list ascii) :
  String.length (string_of_list_ascii l) = List.length l.
Proof. induction l as [| c l IH]; cbn; congruence. Qed.

(** Years 0000 to 9999 are the time values from -62167219200000 up to,
    not including, 253402300800000. *)
Lemma four_digit_year (t : Z) :
  -62167219200000 <= t < 253402300800000 -> 0 <= JsDate.YearFromTime t <= 9999.
Proof.
  intros Ht. unfold JsDate.YearFromTime, JsDate.Day, JsDate.msPerDay.
  pose proof (DateFacts.YearFromDay_spec (t / 86400000)) as H.
  unfold JsDate.DayFromYear in H. DateFacts.div_lia.
Qed.

Lemma iso_chars_length (t : Z) :
  0 <= JsDate.YearFromTime t <= 9999 -> List.length (JsDate.iso_chars t) = 24%nat.
Proof.
  intros Hy. unfold JsDate.iso_chars, JsDate.year_field.
  destruct (Z.leb_spec 0 (JsDate.YearFromTime t)); [| lia].
  destruct (Z.leb_spec (JsDate.YearFromTime t) 9999); [| lia].
  cbn [andb].
  repeat (rewrite length_app || rewrite digits_length || cbn [List.length]).
  reflexivity.
Qed.

Lemma get_timestamp (i : Z) (v : JsVal) :
  get "timestamp" (spread (index mockPredictions i) ++ [("timestamp", v)]) = Some v.
Proof.
  apply HandlerFacts.get_app_fresh.
  destruct (index mockPredictions i) as [entry |] eqn:Hidx; cbn [spread].
  - rewrite (HandlerFacts.catalog_keys _ (HandlerFacts.index_In _ _ _ Hidx)).
    cbn. intros [H | [H | [H | [H | []]]]]; discriminate H.
  - intros [].
Qed.

End TimestampFacts.

(** X16. While the clock after the delay shows a year from 0000 to 9999,
    the timestamp of the response has the fixed width of
    [YYYY-MM-DDTHH:mm:ss.sssZ], 24 characters. *)
Theorem timestamp_fixed_width (f : Server.File) (w : World) :
  -62167219200000 <= clock w + timer w 2000 < 253402300800000 ->
  exists body ts,
    responses (trace (snd (handleClassification (mkRequest (Some f)) w)))
    = responses (trace w) ++ [(200, body)]
    /\ get "timestamp" body = Some (JStr ts)
    /\ String.length ts = 24%nat.
Proof.
  intros Ht.
  assert (Hclock : Z.abs (clock w + timer w 2000) <= JsDate.maxTime)
    by (unfold JsDate.maxTime; lia).
  rewrite (ServerFacts.handle_file_run f w Hclock). cbn [snd trace].
  rewrite ServerFacts.responses_app. cbn [responses].
  eexists. eexists. split; [reflexivity |].
  split; [apply TimestampFacts.get_timestamp |].
  rewrite TimestampFacts.string_of_list_ascii_length.
  apply TimestampFacts.iso_chars_length, TimestampFacts.four_digit_year, Ht.
Qed.

Lemma timestamp_fixed_width_witness :
  exists body ts,
    responses (trace (snd (handleClassification (mkRequest (Some example_upload)) example_world)))
    = [(200, body)]
    /\ get "timestamp" body = Some (JStr ts)
    /\ String.length ts = 24%nat.
Proof.
  apply (timestamp_fixed_width example_upload example_world).
  vm_compute. split; [discriminate | reflexivity].
Defined.
